(** * WatermelonDB native session: [native/shared/Database.cpp]

    A shallow embedding of the [watermelondb::Database] class: the
    constructor's pragma script, [destroy], the record cache and the two
    transactional schema operations [unsafeResetDatabase] and [migrate].

    Methods are state transformers over the object's fields.  Every call on
    the SQLite handle and every acquisition or release of [mutex_] is also
    appended to a ghost [trace], so that ordering and "never called"
    properties can be stated. *)

From Stdlib Require Import ZArith String Ascii List Bool Lia.
From stdpp Require Import base gmap sets list strings.

Local Open Scope string_scope.
Local Open Scope Z_scope.

(** ** Build configuration

    The three preprocessor symbols the file tests. [NDEBUG] is the standard
    switch that turns [assert] into a no-op. *)
Record BuildConfig := {
  SQLITE_HAS_CODEC : bool;
  ANDROID : bool;
  NDEBUG : bool
}.

(** ** The constructor's pragma script *)

(** [std::string::empty]. *)
Definition empty (s : string) : bool :=
  match s with
  | EmptyString => true
  | String _ _ => false
  end.

(** The value of the local variable [initSql] when the constructor reaches
    [executeMultiple(initSql)]; each [let] is one [+=] of the source. *)
Definition initSql (cfg : BuildConfig) (password : string)
    (usesExclusiveLocking : bool) : string :=
  let initSql := "" in
  let initSql :=
    if SQLITE_HAS_CODEC cfg then
      if negb (empty password) then
        let initSql := initSql +:+ ("PRAGMA key = '" +:+ password +:+ "';") in
        let initSql := initSql +:+ "PRAGMA cipher_page_size = 4096;" in
        let initSql := initSql +:+ "PRAGMA kdf_iter = 64000;" in
        let initSql := initSql +:+ "PRAGMA cipher_memory_security = ON;" in
        let initSql := initSql +:+ "PRAGMA cipher_default_use_hmac = ON;" in
        let initSql := initSql +:+ "PRAGMA cipher_compatibility = 4;" in
        initSql
      else initSql
    else initSql in
  let initSql :=
    if ANDROID cfg then initSql +:+ "pragma temp_store = memory;" else initSql in
  let initSql := initSql +:+ "pragma journal_mode = WAL;" in
  let initSql := initSql +:+ "pragma busy_timeout = 5000;" in
  let initSql :=
    if ANDROID cfg then initSql +:+ "pragma synchronous = FULL;" else initSql in
  let initSql :=
    if usesExclusiveLocking
    then initSql +:+ "pragma locking_mode = EXCLUSIVE;" else initSql in
  initSql.

(** ** Events, errors and outcomes *)

(** A compiled statement handle ([sqlite3_stmt *]). *)
Definition sqlite3_stmt := positive.

(** The calls the class makes on its SQLite handle. *)
Inductive Call :=
| CDbConfigResetDatabase (on : bool)
| CExecuteMultiple (sql : string)
| CBeginTransaction
| CCommit
| CRollback
| CGetUserVersion
| CSetUserVersion (v : Z)
| CFinalize (statement : sqlite3_stmt)
| CClose.

(** Ghost events: acquiring and releasing [mutex_], and a call on the
    handle together with whether it succeeded. *)
Inductive Event :=
| EvLock
| EvUnlock
| EvCall (c : Call) (ok : bool).

(** What a [catch (const std::exception &)] can see: the two [jsi::JSError]s
    thrown in this file, and the error a failing helper raises. *)
Inductive Exn :=
| JSError (msg : string)
| SqliteError (c : Call).

(** How a method ends: it returns, it throws, or a failed [assert] calls
    [abort] (no unwinding, so neither handlers nor destructors run). *)
Inductive Outcome (A : Type) :=
| Returned (a : A)
| Threw (ex : Exn)
| Aborted (msg : string).
Arguments Returned {A} a.
Arguments Threw {A} ex.
Arguments Aborted {A} msg.

#[global] Instance Call_eq_dec : EqDecision Call.
Proof. solve_decision. Defined.
#[global] Instance Event_eq_dec : EqDecision Event.
Proof. solve_decision. Defined.
#[global] Instance Exn_eq_dec : EqDecision Exn.
Proof. solve_decision. Defined.

Section Model.
Context {Data : Type}.

(** ** The SQLite handle *)

(** What a transaction protects: the tables and [PRAGMA user_version].  The
    class passes versions around as [int] and does no arithmetic on them, so
    they are plain integers here. *)
Record Store := {
  st_data : Data;
  st_user_version : Z
}.

(** Modelled from the spec: the Engine Handle ([SqliteDb] and the SQLite
    library are not part of this file).  [eng_snapshot] is the store as it
    was at [BEGIN] while a transaction is open.  [eng_faults] schedules
    engine-level failures: every fallible call consumes one entry and fails
    without effect when it is [true]. *)
Record Engine := {
  eng_closed : bool;
  eng_reset_mode : bool;
  eng_store : Store;
  eng_snapshot : option Store;
  eng_faults : list bool
}.

(** Modelled from the spec: what a batch of SQL does to the store.  It gets
    the reset-database flag, and returns the store it leaves behind (which
    may be partially updated) and whether the whole batch succeeded. *)
Variable sql_batch : bool -> string -> Store -> Store * bool.

Definition take_fault (e : Engine) : bool * Engine :=
  match eng_faults e with
  | [] => (false, e)
  | f :: fs =>
      (f, {| eng_closed := eng_closed e; eng_reset_mode := eng_reset_mode e;
             eng_store := eng_store e; eng_snapshot := eng_snapshot e;
             eng_faults := fs |})
  end.

Definition with_store (st : Store) (e : Engine) : Engine :=
  {| eng_closed := eng_closed e; eng_reset_mode := eng_reset_mode e;
     eng_store := st; eng_snapshot := eng_snapshot e;
     eng_faults := eng_faults e |}.

Definition with_snapshot (sn : option Store) (e : Engine) : Engine :=
  {| eng_closed := eng_closed e; eng_reset_mode := eng_reset_mode e;
     eng_store := eng_store e; eng_snapshot := sn;
     eng_faults := eng_faults e |}.

(** Modelled from the spec: a fallible call on the handle.  It fails on a
    closed handle and on a scheduled fault, and otherwise runs [body]. *)
Definition fallible (body : Engine -> bool * Engine) (e : Engine)
    : bool * Engine :=
  if eng_closed e then (false, e)
  else
    let '(f, e1) := take_fault e in
    if f then (false, e1) else body e1.

(** Modelled from the spec: [setResetMode]. *)
Definition eng_db_config_reset (on : bool) : Engine -> bool * Engine :=
  fallible (fun e =>
    (true, {| eng_closed := eng_closed e; eng_reset_mode := on;
              eng_store := eng_store e; eng_snapshot := eng_snapshot e;
              eng_faults := eng_faults e |})).

(** Modelled from the spec: [configure] / execute-batch. *)
Definition eng_exec (sql : string) : Engine -> bool * Engine :=
  fallible (fun e =>
    let '(st, ok) := sql_batch (eng_reset_mode e) sql (eng_store e) in
    (ok, with_store st e)).

(** Modelled from the spec: [beginTransaction]; a second [BEGIN] inside
    an open transaction is refused. *)
Definition eng_begin : Engine -> bool * Engine :=
  fallible (fun e =>
    match eng_snapshot e with
    | Some _ => (false, e)
    | None => (true, with_snapshot (Some (eng_store e)) e)
    end).

(** Modelled from the spec: [commit] makes the current store permanent. *)
Definition eng_commit : Engine -> bool * Engine :=
  fallible (fun e =>
    match eng_snapshot e with
    | Some _ => (true, with_snapshot None e)
    | None => (false, e)
    end).

(** Modelled from the spec: [rollback] puts back the store of [BEGIN]. *)
Definition eng_rollback : Engine -> bool * Engine :=
  fallible (fun e =>
    match eng_snapshot e with
    | Some st0 => (true, with_snapshot None (with_store st0 e))
    | None => (false, e)
    end).

(** Modelled from the spec: [setSchemaVersion]. *)
Definition eng_set_user_version (v : Z) : Engine -> bool * Engine :=
  fallible (fun e =>
    (true, with_store {| st_data := st_data (eng_store e);
                         st_user_version := v |} e)).

(** Modelled from the spec: [finalize]; it reports an error code but the
    statement is released either way. *)
Definition eng_finalize (statement : sqlite3_stmt) (e : Engine)
    : bool * Engine :=
  let '(f, e1) := take_fault e in (negb f, e1).

(** Modelled from the spec: [close]. *)
Definition eng_close (e : Engine) : bool * Engine :=
  (true, {| eng_closed := true; eng_reset_mode := eng_reset_mode e;
            eng_store := eng_store e; eng_snapshot := eng_snapshot e;
            eng_faults := eng_faults e |}).

(** ** The [Database] object *)

(** The fields of the class, and the ghost [trace] (oldest event first).
    [mutex_] itself has no field: in a sequential run it is free whenever a
    method starts, and its use shows as [EvLock] / [EvUnlock]. *)
Record Database := {
  db_ : Engine;
  isDestroyed_ : bool;
  cachedStatements_ : gmap string sqlite3_stmt;
  cachedRecords_ : gset string;
  trace : list Event
}.

Definition set_db_ (e : Engine) (s : Database) : Database :=
  {| db_ := e; isDestroyed_ := isDestroyed_ s;
     cachedStatements_ := cachedStatements_ s;
     cachedRecords_ := cachedRecords_ s; trace := trace s |}.

Definition set_isDestroyed_ (b : bool) (s : Database) : Database :=
  {| db_ := db_ s; isDestroyed_ := b;
     cachedStatements_ := cachedStatements_ s;
     cachedRecords_ := cachedRecords_ s; trace := trace s |}.

Definition set_cachedStatements_ (m : gmap string sqlite3_stmt)
    (s : Database) : Database :=
  {| db_ := db_ s; isDestroyed_ := isDestroyed_ s;
     cachedStatements_ := m;
     cachedRecords_ := cachedRecords_ s; trace := trace s |}.

Definition set_cachedRecords_ (c : gset string) (s : Database) : Database :=
  {| db_ := db_ s; isDestroyed_ := isDestroyed_ s;
     cachedStatements_ := cachedStatements_ s;
     cachedRecords_ := c; trace := trace s |}.

Definition log (ev : Event) (s : Database) : Database :=
  {| db_ := db_ s; isDestroyed_ := isDestroyed_ s;
     cachedStatements_ := cachedStatements_ s;
     cachedRecords_ := cachedRecords_ s; trace := trace s ++ [ev] |}.

(** ** Methods as state transformers with exceptions *)

Definition M (A : Type) : Type := Database -> Outcome A * Database.

Definition ret {A} (a : A) : M A := fun s => (Returned a, s).

Definition bind {A B} (m : M A) (k : A -> M B) : M B :=
  fun s =>
    match m s with
    | (Returned a, s1) => k a s1
    | (Threw ex, s1) => (Threw ex, s1)
    | (Aborted msg, s1) => (Aborted msg, s1)
    end.

Definition throw {A} (ex : Exn) : M A := fun s => (Threw ex, s).

Definition abort {A} (msg : string) : M A := fun s => (Aborted msg, s).

(** Reading and assigning the object's fields. *)
Definition gets {A} (f : Database -> A) : M A := fun s => (Returned (f s), s).

Definition modify (f : Database -> Database) : M unit :=
  fun s => (Returned tt, f s).

(** [try { body } catch (const std::exception &ex) { handler }]. *)
Definition try_catch {A} (body : M A) (handler : Exn -> M A) : M A :=
  fun s =>
    match body s with
    | (Threw ex, s1) => handler ex s1
    | r => r
    end.

(** [const std::lock_guard<std::mutex> lock(mutex_);] followed by the rest
    of the function: the guard is released when the scope is left by a
    return or by an exception. *)
Definition lock_guard {A} (body : M A) : M A :=
  fun s =>
    match body (log EvLock s) with
    | (Aborted msg, s1) => (Aborted msg, s1)
    | (r, s1) => (r, log EvUnlock s1)
    end.

(** A call on the handle, recorded in the trace with its result. *)
Definition call (c : Call) (f : Engine -> bool * Engine) : M bool :=
  fun s =>
    let '(ok, e) := f (db_ s) in
    (Returned ok, log (EvCall c ok) (set_db_ e s)).

(** A call made through one of the class's throwing helpers. *)
Definition checked (c : Call) (f : Engine -> bool * Engine) : M unit :=
  bind (call c f) (fun ok => if ok then ret tt else throw (SqliteError c)).

Notation "x <- m ;; k" := (bind m (fun x => k))
  (at level 100, m at next level, right associativity, only parsing).
Notation "m ;; k" := (bind m (fun _ => k))
  (at level 100, right associativity, only parsing).

(** ** Helpers of the class that this file calls but does not define *)

(** Modelled from the spec: [Database::executeMultiple] runs a batch on the
    handle and throws when the engine reports an error. *)
Definition executeMultiple (sql : string) : M unit :=
  checked (CExecuteMultiple sql) (eng_exec sql).

(** Modelled from the spec: [Database::beginTransaction]. *)
Definition beginTransaction : M unit := checked CBeginTransaction eng_begin.

(** Modelled from the spec: [Database::commit]. *)
Definition commit : M unit := checked CCommit eng_commit.

(** Modelled from the spec: [Database::rollback]. *)
Definition rollback : M unit := checked CRollback eng_rollback.

(** Modelled from the spec: [Database::setUserVersion]. *)
Definition setUserVersion (newVersion : Z) : M unit :=
  checked (CSetUserVersion newVersion) (eng_set_user_version newVersion).

(** Modelled from the spec: [Database::getUserVersion] reads the version the
    engine holds; the read itself only fails on a closed handle. *)
Definition getUserVersion : M Z :=
  fun s =>
    if eng_closed (db_ s)
    then (Threw (SqliteError CGetUserVersion),
          log (EvCall CGetUserVersion false) s)
    else (Returned (st_user_version (eng_store (db_ s))),
          log (EvCall CGetUserVersion true) s).

(** [sqlite3_db_config(db_->sqlite, SQLITE_DBCONFIG_RESET_DATABASE, on, 0)];
    the result is [true] for [SQLITE_OK]. *)
Definition sqlite3_db_config_reset_database (on : bool) : M bool :=
  call (CDbConfigResetDatabase on) (eng_db_config_reset on).

(** [sqlite3_finalize(statement)]; the result is [true] for [SQLITE_OK]. *)
Definition sqlite3_finalize (statement : sqlite3_stmt) : M bool :=
  call (CFinalize statement) (eng_finalize statement).

(** [db_->destroy()]. *)
Definition db_destroy : M unit :=
  _ <- call CClose eng_close ;; ret tt.

(** [assert(cond && msg)]: with [NDEBUG] the macro expands to nothing and
    [cond] is not evaluated; otherwise a false [cond] aborts the process. *)
Definition assert_ (cfg : BuildConfig) (cond : M bool) (msg : string)
    : M unit :=
  if NDEBUG cfg then ret tt
  else b <- cond ;; if b then ret tt else abort msg.

(** A range-based [for] over a container's elements. *)
Fixpoint for_each {A} (l : list A) (body : A -> M unit) : M unit :=
  match l with
  | [] => ret tt
  | x :: l' => body x ;; for_each l' body
  end.

(** ** The methods of [Database.cpp] *)


(** The loop visits the entries of [cachedStatements_] in the order
    [map_to_list] lists them; [std::unordered_map] fixes no order. *)
Definition destroy : M unit :=
  lock_guard (
    destroyed <- gets isDestroyed_ ;;
    if destroyed then ret tt
    else (
      modify (set_isDestroyed_ true) ;;
      cached <- gets cachedStatements_ ;;
      for_each (map_to_list cached)
        (fun cachedStatement =>
           let statement := cachedStatement.2 in
           _ <- sqlite3_finalize statement ;; ret tt) ;;
      modify (set_cachedStatements_ ∅) ;;
      db_destroy)).

Definition isCached (cacheKey : string) : M bool :=
  records <- gets cachedRecords_ ;;
  ret (bool_decide (cacheKey ∈ records)).

Definition markAsCached (cacheKey : string) : M unit :=
  modify (fun s => set_cachedRecords_ ({[cacheKey]} ∪ cachedRecords_ s) s).

Definition removeFromCache (cacheKey : string) : M unit :=
  modify (fun s => set_cachedRecords_ (cachedRecords_ s ∖ {[cacheKey]}) s).

(** [schema] stands for [schema.utf8(rt)]; fetching the runtime with
    [getRt()] has no effect on the object. *)
Definition unsafeResetDatabase (schema : string) (schemaVersion : Z)
    : M unit :=
  lock_guard (
    ok <- sqlite3_db_config_reset_database true ;;
    (if negb ok
     then throw (JSError "Failed to enable reset database mode")
     else ret tt) ;;
    executeMultiple "vacuum" ;;
    ok <- sqlite3_db_config_reset_database false ;;
    (if negb ok
     then throw (JSError "Failed to disable reset database mode")
     else ret tt) ;;
    beginTransaction ;;
    try_catch (
      modify (set_cachedRecords_ ∅) ;;
      executeMultiple schema ;;
      setUserVersion schemaVersion ;;
      commit
    ) (fun ex => rollback ;; throw ex)).

(** [migrationSql] stands for [migrationSql.utf8(rt)]. *)
Definition migrate (cfg : BuildConfig) (migrationSql : string)
    (fromVersion toVersion : Z) : M unit :=
  lock_guard (
    beginTransaction ;;
    try_catch (
      assert_ cfg (v <- getUserVersion ;; ret (v =? fromVersion))
        "Incompatible migration set" ;;
      executeMultiple migrationSql ;;
      setUserVersion toVersion ;;
      commit
    ) (fun ex => rollback ;; throw ex)).


(** ** Auxiliary notions for the proofs *)

(** The three steps that end both transactions, under the handler that
    rolls back and rethrows. *)
Definition transaction_tail (sql : string) (v : Z) : M unit :=
  try_catch
    (executeMultiple sql ;; setUserVersion v ;; commit)
    (fun ex => rollback ;; throw ex).

(** The fields that no engine call changes. *)
Definition same_fields (s1 s2 : Database) : Prop :=
  isDestroyed_ s2 = isDestroyed_ s1
  /\ cachedStatements_ s2 = cachedStatements_ s1
  /\ cachedRecords_ s2 = cachedRecords_ s1.

(** What a call that only takes and releases [mutex_] leaves behind. *)
Definition lock_unlock (s : Database) : Database := log EvUnlock (log EvLock s).

End Model.

Arguments Store : clear implicits.
Arguments Engine : clear implicits.
Arguments Database : clear implicits.
Arguments M : clear implicits.

(** ** Reading a trace *)

Definition call_of (ev : Event) : option Call :=
  match ev with
  | EvCall c _ => Some c
  | EvLock | EvUnlock => None
  end.

(** The calls on the handle that a piece of trace holds, in order. *)
Definition calls (d : list Event) : list Call := omap call_of d.

Definition is_call (ev : Event) : Prop :=
  match ev with
  | EvCall _ _ => True
  | EvLock | EvUnlock => False
  end.

(** A method that takes [mutex_] on entry and holds it until it leaves:
    its events are one acquisition, then calls on the handle only, then one
    release. *)
Definition under_guard (d : list Event) : Prop :=
  exists mid, d = EvLock :: mid ++ [EvUnlock] /\ Forall is_call mid.

(** ** The statement structure of a script

    SQLite separates the statements of a batch at each [;] that is not inside
    a string literal, and a literal runs from one single quote to the next (a
    doubled quote inside a literal closes and reopens it at once).
    [statements quoted s] lists the statements of [s] without their
    terminators; [quoted] tells whether [s] starts inside a literal, and the
    last element is what follows the last terminator.  Comments and quoted
    identifiers are not read: this is SQLite's splitting for scripts that
    have none outside a literal, as every script whose password has no
    quote. *)
Definition push_char (c : ascii) (l : list string) : list string :=
  match l with
  | [] => [String c EmptyString]
  | x :: xs => String c x :: xs
  end.

Fixpoint statements (quoted : bool) (s : string) : list string :=
  match s with
  | EmptyString => [EmptyString]
  | String c rest =>
      if Ascii.eqb c "'"%char
      then push_char c (statements (negb quoted) rest)
      else if Ascii.eqb c ";"%char && negb quoted
      then EmptyString :: statements false rest
      else push_char c (statements quoted rest)
  end.

(** The text the constructor adds for a non-empty password. *)
Definition cipher_pragmas (password : string) : string :=
  ("PRAGMA key = '" +:+ password +:+ "';")
  +:+ "PRAGMA cipher_page_size = 4096;"
  +:+ "PRAGMA kdf_iter = 64000;"
  +:+ "PRAGMA cipher_memory_security = ON;"
  +:+ "PRAGMA cipher_default_use_hmac = ON;"
  +:+ "PRAGMA cipher_compatibility = 4;".


Fixpoint has_quote (s : string) : bool :=
  match s with
  | EmptyString => false
  | String c rest => Ascii.eqb c "'"%char || has_quote rest
  end.

(** The same build without SQLCipher support. *)
Definition without_codec (cfg : BuildConfig) : BuildConfig :=
  {| SQLITE_HAS_CODEC := false; ANDROID := ANDROID cfg; NDEBUG := NDEBUG cfg |}.

(** The statements the constructor means to issue, in order, each without
    its terminator; the empty string at the end is what follows the last
    terminator. *)
Definition init_statements (cfg : BuildConfig) (password : string)
    (usesExclusiveLocking : bool) : list string :=
  ((if SQLITE_HAS_CODEC cfg && negb (empty password)
    then [ "PRAGMA key = '" +:+ password +:+ "'";
           "PRAGMA cipher_page_size = 4096";
           "PRAGMA kdf_iter = 64000";
           "PRAGMA cipher_memory_security = ON";
           "PRAGMA cipher_default_use_hmac = ON";
           "PRAGMA cipher_compatibility = 4" ]
    else [])
   ++ (if ANDROID cfg then ["pragma temp_store = memory"] else [])
   ++ ["pragma journal_mode = WAL"; "pragma busy_timeout = 5000"]
   ++ (if ANDROID cfg then ["pragma synchronous = FULL"] else [])
   ++ (if usesExclusiveLocking
       then ["pragma locking_mode = EXCLUSIVE"] else [])
   ++ [""])%list.

(** ** Sequences of calls *)

Inductive CacheOp :=
| OpIsCached (cacheKey : string)
| OpMarkAsCached (cacheKey : string)
| OpRemoveFromCache (cacheKey : string).

(** The object after one cache call (none of the three can fail). *)
Definition run_cache_op {Data} (op : CacheOp) (s : Database Data)
    : Database Data :=
  match op with
  | OpIsCached k => (isCached k s).2
  | OpMarkAsCached k => (markAsCached k s).2
  | OpRemoveFromCache k => (removeFromCache k s).2
  end.

Definition run_cache_ops {Data} (ops : list CacheOp) (s : Database Data)
    : Database Data :=
  foldl (fun s op => run_cache_op op s) s ops.

(** The most recent call in [ops] that changes the entry of [key]:
    [Some true] for [markAsCached], [Some false] for [removeFromCache]. *)
Fixpoint last_mutation (key : string) (ops : list CacheOp) : option bool :=
  match ops with
  | [] => None
  | op :: rest =>
      match last_mutation key rest with
      | Some b => Some b
      | None =>
          match op with
          | OpMarkAsCached k => if decide (k = key) then Some true else None
          | OpRemoveFromCache k => if decide (k = key) then Some false else None
          | OpIsCached _ => None
          end
      end
  end.


(** ** A small engine to run the methods on

    Tables are listed by the statement that made them.  A vacuum in
    reset-database mode empties the file; the batch [bad_batch] creates a
    table and then fails; any other batch succeeds. *)
Module Toy.

Definition bad_batch : string := "CREATE TABLE t(id INTEGER); BOGUS".

Definition sql_batch (reset_mode : bool) (sql : string)
    (st : Store (list string)) : Store (list string) * bool :=
  if String.eqb sql "vacuum" then
    (if reset_mode then {| st_data := []; st_user_version := 0 |} else st, true)
  else if String.eqb sql bad_batch then
    ({| st_data := (st_data st ++ ["CREATE TABLE t(id INTEGER)"])%list;
        st_user_version := st_user_version st |}, false)
  else
    ({| st_data := (st_data st ++ [sql])%list;
        st_user_version := st_user_version st |}, true).

(** An open handle on a file with one table and schema version [v]. *)
Definition engine (v : Z) (faults : list bool) : Engine (list string) :=
  {| eng_closed := false; eng_reset_mode := false;
     eng_store := {| st_data := ["CREATE TABLE posts(id)"];
                     st_user_version := v |};
     eng_snapshot := None; eng_faults := faults |}.

(** A live object with one cached statement and one cached record. *)
Definition session (v : Z) (faults : list bool) : Database (list string) :=
  {| db_ := engine v faults; isDestroyed_ := false;
     cachedStatements_ := {[ "select * from posts" := 7%positive ]};
     cachedRecords_ := {[ "posts$p1" ]};
     trace := [] |}.

(** An object as a constructor may find it: live, with empty caches. *)
Definition fresh (v : Z) (faults : list bool) : Database (list string) :=
  {| db_ := engine v faults; isDestroyed_ := false;
     cachedStatements_ := ∅; cachedRecords_ := ∅; trace := [] |}.

Definition debug_build : BuildConfig :=
  {| SQLITE_HAS_CODEC := true; ANDROID := false; NDEBUG := false |}.

Definition release_build : BuildConfig :=
  {| SQLITE_HAS_CODEC := true; ANDROID := false; NDEBUG := true |}.

End Toy.

(** * Properties *)

Section Proofs.
Context {Data : Type}.
Variable sql_batch : bool -> string -> Store Data -> Store Data * bool.

Implicit Types (s : Database Data) (e : Engine Data) (d : list Event).

(** ** What the engine calls do *)

Ltac unfold_engine :=
  unfold eng_db_config_reset, eng_exec, eng_begin, eng_commit, eng_rollback,
    eng_set_user_version, eng_finalize, eng_close, fallible, take_fault,
    with_store, with_snapshot in *.

Ltac engine_cases e :=
  destruct e as [closed rm st sn [|[] fl]]; unfold_engine; simpl in *;
  repeat (case_match; simplify_eq /=); try done.

Lemma eng_begin_true e e1 :
  eng_begin e = (true, e1) ->
  eng_closed e1 = false /\ eng_snapshot e = None
  /\ eng_store e1 = eng_store e /\ eng_snapshot e1 = Some (eng_store e)
  /\ eng_reset_mode e1 = eng_reset_mode e.
Proof. intros H. engine_cases e. Qed.

Lemma eng_rollback_true e e1 :
  eng_rollback e = (true, e1) ->
  eng_snapshot e = Some (eng_store e1) /\ eng_snapshot e1 = None
  /\ eng_closed e1 = false.
Proof. intros H. engine_cases e. Qed.

Lemma eng_commit_true e e1 :
  eng_commit e = (true, e1) ->
  eng_store e1 = eng_store e /\ eng_snapshot e1 = None
  /\ eng_closed e1 = false.
Proof. intros H. engine_cases e. Qed.

Lemma eng_commit_false e e1 :
  eng_commit e = (false, e1) ->
  eng_snapshot e1 = eng_snapshot e /\ eng_closed e1 = eng_closed e.
Proof. intros H. engine_cases e. Qed.

Lemma eng_exec_keeps sql ok e e1 :
  eng_exec sql_batch sql e = (ok, e1) ->
  eng_snapshot e1 = eng_snapshot e /\ eng_closed e1 = eng_closed e
  /\ eng_reset_mode e1 = eng_reset_mode e.
Proof. intros H. engine_cases e. Qed.

Lemma eng_exec_true sql e e1 :
  eng_exec sql_batch sql e = (true, e1) ->
  eng_closed e = false
  /\ eng_store e1 = (sql_batch (eng_reset_mode e) sql (eng_store e)).1.
Proof.
  intros H. engine_cases e.
  all: match goal with H : sql_batch _ _ _ = _ |- _ => by rewrite H end.
Qed.

Lemma eng_set_user_version_keeps v ok e e1 :
  eng_set_user_version v e = (ok, e1) ->
  eng_snapshot e1 = eng_snapshot e /\ eng_closed e1 = eng_closed e.
Proof. intros H. engine_cases e. Qed.

Lemma eng_set_user_version_true v e e1 :
  eng_set_user_version v e = (true, e1) ->
  st_user_version (eng_store e1) = v /\ eng_closed e1 = false.
Proof. intros H. engine_cases e. Qed.

Lemma eng_db_config_reset_true on e e1 :
  eng_db_config_reset on e = (true, e1) ->
  eng_reset_mode e1 = on /\ eng_store e1 = eng_store e
  /\ eng_snapshot e1 = eng_snapshot e /\ eng_closed e1 = false.
Proof. intros H. engine_cases e. Qed.

(** ** Stepping through a method *)

Lemma bind_run {A B} (m : M Data A) (k : A -> M Data B) s :
  bind m k s =
    match m s with
    | (Returned a, s1) => k a s1
    | (Threw ex, s1) => (Threw ex, s1)
    | (Aborted msg, s1) => (Aborted msg, s1)
    end.
Proof. reflexivity. Qed.

Lemma bind_ret {A B} (a : A) (k : A -> M Data B) s :
  bind (ret a) k s = k a s.
Proof. reflexivity. Qed.

Lemma checked_run c (f : Engine Data -> bool * Engine Data) s :
  checked c f s =
    ((if (f (db_ s)).1 then Returned tt else Threw (SqliteError c)),
     log (EvCall c (f (db_ s)).1) (set_db_ (f (db_ s)).2 s)).
Proof. unfold checked, call, bind. by destruct (f (db_ s)) as [[] e1]. Qed.

Lemma call_run c (f : Engine Data -> bool * Engine Data) s :
  call c f s =
    (Returned (f (db_ s)).1,
     log (EvCall c (f (db_ s)).1) (set_db_ (f (db_ s)).2 s)).
Proof. unfold call. by destruct (f (db_ s)) as [[] e1]. Qed.

Lemma getUserVersion_open s :
  eng_closed (db_ s) = false ->
  getUserVersion s =
    (Returned (st_user_version (eng_store (db_ s))),
     log (EvCall CGetUserVersion true) s).
Proof. intros H. unfold getUserVersion. by rewrite H. Qed.

Lemma assert_run cfg (fromVersion : Z) msg s :
  eng_closed (db_ s) = false ->
  assert_ cfg (bind getUserVersion (fun v => ret (v =? fromVersion))) msg s =
    if NDEBUG cfg then (Returned tt, s)
    else if st_user_version (eng_store (db_ s)) =? fromVersion
    then (Returned tt, log (EvCall CGetUserVersion true) s)
    else (Aborted msg, log (EvCall CGetUserVersion true) s).
Proof.
  intros H. unfold assert_. destruct (NDEBUG cfg); [done|].
  rewrite !bind_run, getUserVersion_open by done. unfold ret.
  by destruct (_ =? _).
Qed.

Ltac unfold_methods :=
  unfold executeMultiple, beginTransaction, commit, rollback, setUserVersion,
    sqlite3_db_config_reset_database, sqlite3_finalize, db_destroy in *.

Ltac unfold_monad :=
  unfold lock_guard, try_catch, gets, modify, call, bind, ret, throw, abort
    in *.

Ltac run_call H :=
  match type of H with
  | context [checked ?c ?f ?s] =>
      lazymatch s with
      | context [checked] => fail
      | _ => rewrite (checked_run c f s) in H; simpl in H;
             match type of H with
             | context [f ?e] =>
                 let e1 := fresh "e" in
                 let Hc := fresh "Hc" in
                 destruct (f e) as [[] e1] eqn:Hc; simpl in H
             end
      end
  end.

Lemma try_catch_bind {A B} (m : M Data A) (k : A -> M Data B) h s :
  try_catch (bind m k) h s =
    match m s with
    | (Returned a, s1) => try_catch (k a) h s1
    | (Threw ex, s1) => h ex s1
    | (Aborted msg, s1) => (Aborted msg, s1)
    end.
Proof. unfold try_catch, bind. by destruct (m s) as [[] ?]. Qed.

(** Collects what is known about the results of the engine calls among the
    hypotheses. *)
Ltac engine_facts :=
  repeat match goal with
  | H : eng_begin _ = (true, _) |- _ =>
      apply eng_begin_true in H; destruct H as (? & ? & ? & ? & ?)
  | H : eng_rollback _ = (true, _) |- _ =>
      apply eng_rollback_true in H; destruct H as (? & ? & ?)
  | H : eng_commit _ = (true, _) |- _ =>
      apply eng_commit_true in H; destruct H as (? & ? & ?)
  | H : eng_commit _ = (false, _) |- _ =>
      apply eng_commit_false in H; destruct H as (? & ?)
  | H : eng_exec _ _ _ = (true, _) |- _ =>
      pose proof (eng_exec_true _ _ _ H) as (? & ?);
      apply eng_exec_keeps in H; destruct H as (? & ? & ?)
  | H : eng_exec _ _ _ = (false, _) |- _ =>
      apply eng_exec_keeps in H; destruct H as (? & ? & ?)
  | H : eng_set_user_version _ _ = (true, _) |- _ =>
      pose proof (eng_set_user_version_true _ _ _ H) as (? & ?);
      apply eng_set_user_version_keeps in H; destruct H as (? & ?)
  | H : eng_set_user_version _ _ = (false, _) |- _ =>
      apply eng_set_user_version_keeps in H; destruct H as (? & ?)
  | H : eng_db_config_reset _ _ = (true, _) |- _ =>
      apply eng_db_config_reset_true in H; destruct H as (? & ? & ? & ?)
  end.

Lemma transaction_tail_run sql v s1 r s2 st0 :
  transaction_tail sql_batch sql v s1 = (r, s2) ->
  eng_snapshot (db_ s1) = Some st0 ->
  same_fields s1 s2 /\
  ((r = Returned tt
    /\ trace s2 = (trace s1 ++ [EvCall (CExecuteMultiple sql) true;
                                 EvCall (CSetUserVersion v) true;
                                 EvCall CCommit true])%list
    /\ st_user_version (eng_store (db_ s2)) = v
    /\ eng_snapshot (db_ s2) = None
    /\ eng_closed (db_ s2) = false)
   \/
   (exists mid c ok,
      trace s2 = (trace s1 ++ mid ++ [EvCall c false; EvCall CRollback ok])%list
      /\ Forall is_call mid
      /\ c ∈ [CExecuteMultiple sql; CSetUserVersion v; CCommit]
      /\ r = Threw (SqliteError (if ok then c else CRollback))
      /\ (ok = true ->
            eng_store (db_ s2) = st0 /\ eng_snapshot (db_ s2) = None))).
Proof.
  intros H Hsn. destruct s1 as [e dd cs cr tr]. simpl in *.
  unfold transaction_tail in H. unfold_methods. unfold_monad. simpl in H.
  split.
  { repeat run_call H; by simplify_eq. }
  run_call H; [run_call H; [run_call H|]|].
  - left. simplify_eq /=. rewrite <- !app_assoc. simpl.
    engine_facts. intuition congruence.
  - right. exists [EvCall (CExecuteMultiple sql) true;
                   EvCall (CSetUserVersion v) true], CCommit.
    run_call H; simplify_eq /=; eexists; rewrite <- !app_assoc; simpl;
      (split; [done|]); (split; [by repeat constructor|]);
      (split; [set_solver|]); (split; [done|]); try done.
    intros _. engine_facts. split; congruence.
  - right. exists [EvCall (CExecuteMultiple sql) true], (CSetUserVersion v).
    run_call H; simplify_eq /=; eexists; rewrite <- !app_assoc; simpl;
      (split; [done|]); (split; [by repeat constructor|]);
      (split; [set_solver|]); (split; [done|]); try done.
    intros _. engine_facts. split; congruence.
  - right. exists [], (CExecuteMultiple sql).
    run_call H; simplify_eq /=; eexists; rewrite <- !app_assoc; simpl;
      (split; [done|]); (split; [by repeat constructor|]);
      (split; [set_solver|]); (split; [done|]); try done.
    intros _. engine_facts. split; congruence.
Qed.

(** C1 (as amended). In a build that keeps assertions, a [migrate] whose
    transaction opens on a schema version other than [fromVersion] ends in
    the failed assertion: the process aborts with the message of the
    assertion, the batch [migrationSql] has not been passed to the engine,
    and schema version, data and record cache are as they were. *)
Theorem migrate_version_mismatch_aborts (cfg : BuildConfig)
    (migrationSql : string) (fromVersion toVersion : Z) s :
  NDEBUG cfg = false ->
  (eng_begin (db_ s)).1 = true ->
  st_user_version (eng_store (db_ s)) <> fromVersion ->
  exists s',
    migrate sql_batch cfg migrationSql fromVersion toVersion s
      = (Aborted "Incompatible migration set", s')
    /\ trace s' = (trace s ++ [EvLock; EvCall CBeginTransaction true;
                                EvCall CGetUserVersion true])%list
    /\ calls (drop (length (trace s)) (trace s'))
         = [CBeginTransaction; CGetUserVersion]
    /\ eng_store (db_ s') = eng_store (db_ s)
    /\ cachedRecords_ s' = cachedRecords_ s.
Proof.
  intros Hdbg Hbegin Hver.
  destruct (eng_begin (db_ s)) as [ok e1] eqn:Hb. simpl in Hbegin. subst ok.
  destruct (eng_begin_true _ _ Hb) as (Hopen & _ & Hst & _).
  unfold migrate, assert_, beginTransaction. rewrite Hdbg.
  unfold lock_guard, try_catch, bind at 1 2. rewrite checked_run.
  simpl. rewrite Hb. simpl.
  unfold bind at 1 2 3 4. rewrite getUserVersion_open by done. simpl.
  rewrite Hst. apply Z.eqb_neq in Hver. rewrite Hver.
  eexists. split; [reflexivity|]. simpl.
  rewrite <- !app_assoc. simpl. repeat split; try done.
  by rewrite drop_app_length.
Qed.

(** Refutes the membership of an event in an explicit list of others. *)
Ltac not_in_list :=
  let Hin := fresh "Hin" in
  intros Hin;
  repeat (apply elem_of_cons in Hin as [Hin|Hin]; [discriminate|]);
  by apply elem_of_nil in Hin.

(** A run that ends in one of the calls before the transaction. *)
Ltac prelude_fails H pre :=
  left; simplify_eq /=; rewrite <- !app_assoc; simpl;
  eexists _, pre; split; [done|]; split; [done|];
  split; [by repeat constructor|]; split; [by not_in_list|];
  split; [by eexists _, _|done].

Lemma transaction_tail_outcome sql v s1 r s2 st0 :
  transaction_tail sql_batch sql v s1 = (r, s2) ->
  eng_snapshot (db_ s1) = Some st0 ->
  r = Returned tt \/ exists ex, r = Threw ex.
Proof.
  intros H Hsn. apply transaction_tail_run with (st0 := st0) in H; [|done].
  destruct H as (_ & [(-> & _)|(mid & c & ok & _ & _ & _ & -> & _)]); eauto.
Qed.

(** How a [migrate] can go: [BEGIN] fails, or the assertion fails, or the
    transaction tail runs from the state [s1] the assertion leaves. *)
Lemma migrate_run cfg sql (from to : Z) s r s' :
  migrate sql_batch cfg sql from to s = (r, s') ->
  (r = Threw (SqliteError CBeginTransaction)
   /\ trace s' = (trace s ++ [EvLock; EvCall CBeginTransaction false;
                               EvUnlock])%list
   /\ same_fields s s')
  \/
  (NDEBUG cfg = false /\ st_user_version (eng_store (db_ s)) <> from
   /\ r = Aborted "Incompatible migration set"
   /\ trace s' = (trace s ++ [EvLock; EvCall CBeginTransaction true;
                               EvCall CGetUserVersion true])%list)
  \/
  (exists s1 s2 pre,
     transaction_tail sql_batch sql to s1 = (r, s2)
     /\ s' = log EvUnlock s2
     /\ trace s1 = (trace s ++ [EvLock; EvCall CBeginTransaction true]
                            ++ pre)%list
     /\ Forall is_call pre
     /\ eng_snapshot (db_ s1) = Some (eng_store (db_ s))
     /\ same_fields s s1).
Proof.
  intros H. unfold migrate, lock_guard in H. rewrite bind_run in H.
  unfold beginTransaction in H. rewrite checked_run in H. simpl in H.
  destruct (eng_begin (db_ s)) as [[] e1] eqn:Hb; simpl in H.
  2: { left. simplify_eq /=. by rewrite <- !app_assoc. }
  right. rewrite try_catch_bind in H.
  pose proof (eng_begin_true _ _ Hb) as (Hopen & _ & Hst & Hsn & _).
  rewrite assert_run in H by done.
  change (try_catch _ _) with (transaction_tail sql_batch sql to) in H.
  set (s1 := log (EvCall CBeginTransaction true) _) in H.
  assert (trace s1 = (trace s ++ [EvLock; EvCall CBeginTransaction true])%list)
    as Htr1 by (simpl; by rewrite <- !app_assoc).
  destruct (NDEBUG cfg) eqn:Hn.
  - right. destruct (transaction_tail sql_batch sql to s1) as [r2 s2] eqn:Ht.
    destruct (transaction_tail_outcome _ _ _ _ _ _ Ht Hsn) as [->|[ex ->]];
      simplify_eq; exists s1, s2, []; by rewrite app_nil_r.
  - simpl in H. rewrite Hst in H.
    destruct (_ =? from) eqn:Hv.
    2: { left. apply Z.eqb_neq in Hv. simplify_eq. simpl.
         by rewrite <- !app_assoc. }
    right. set (s1' := log (EvCall CGetUserVersion true) s1) in H.
    destruct (transaction_tail sql_batch sql to s1') as [r2 s2] eqn:Ht.
    destruct (transaction_tail_outcome _ _ _ _ _ _ Ht Hsn) as [->|[ex ->]];
      simplify_eq; exists s1', s2, [EvCall CGetUserVersion true];
      (repeat split; try done);
      try (by repeat constructor); simpl; by rewrite <- !app_assoc.
Qed.

(** How an [unsafeResetDatabase] can go: one of the four calls before the
    transaction fails, or the transaction tail runs on the vacuumed store
    with an empty record cache. *)
Lemma unsafeResetDatabase_run schema (v : Z) s r s' :
  unsafeResetDatabase sql_batch schema v s = (r, s') ->
  (exists ex pre,
     r = Threw ex
     /\ trace s' = (trace s ++ EvLock :: (pre ++ [EvUnlock]))%list
     /\ Forall is_call pre
     /\ (EvCall CBeginTransaction true ∉ pre)
     /\ (exists ok rest, pre = EvCall (CDbConfigResetDatabase true) ok :: rest)
     /\ same_fields s s')
  \/
  (exists s1 s2,
     transaction_tail sql_batch schema v s1 = (r, s2)
     /\ s' = log EvUnlock s2
     /\ trace s1 = (trace s ++ [EvLock;
                      EvCall (CDbConfigResetDatabase true) true;
                      EvCall (CExecuteMultiple "vacuum") true;
                      EvCall (CDbConfigResetDatabase false) true;
                      EvCall CBeginTransaction true])%list
     /\ eng_snapshot (db_ s1)
          = Some (sql_batch true "vacuum" (eng_store (db_ s))).1
     /\ cachedRecords_ s1 = ∅
     /\ isDestroyed_ s1 = isDestroyed_ s
     /\ cachedStatements_ s1 = cachedStatements_ s).
Proof.
  intros H. unfold unsafeResetDatabase, lock_guard in H.
  unfold sqlite3_db_config_reset_database, executeMultiple,
    beginTransaction in H.
  rewrite bind_run, call_run in H. simpl in H.
  destruct (eng_db_config_reset true (db_ s)) as [[] e1] eqn:H1;
    simpl in H; [|prelude_fails H
      [EvCall (CDbConfigResetDatabase true) false]].
  rewrite bind_ret, bind_run, checked_run in H. simpl in H.
  destruct (eng_exec sql_batch "vacuum" e1) as [[] e2] eqn:H2;
    simpl in H; [|prelude_fails H
      [EvCall (CDbConfigResetDatabase true) true;
       EvCall (CExecuteMultiple "vacuum") false]].
  rewrite bind_run, call_run in H. simpl in H.
  destruct (eng_db_config_reset false e2) as [[] e3] eqn:H3;
    simpl in H; [|prelude_fails H
      [EvCall (CDbConfigResetDatabase true) true;
       EvCall (CExecuteMultiple "vacuum") true;
       EvCall (CDbConfigResetDatabase false) false]].
  rewrite bind_ret, bind_run, checked_run in H. simpl in H.
  destruct (eng_begin e3) as [[] e4] eqn:H4;
    simpl in H; [|prelude_fails H
      [EvCall (CDbConfigResetDatabase true) true;
       EvCall (CExecuteMultiple "vacuum") true;
       EvCall (CDbConfigResetDatabase false) true;
       EvCall CBeginTransaction false]].
  right. rewrite try_catch_bind in H. unfold modify at 1 in H.
  change (try_catch _ _) with (transaction_tail sql_batch schema v) in H.
  set (s1 := set_cachedRecords_ _ _) in H.
  destruct (transaction_tail sql_batch schema v s1) as [r2 s2] eqn:Ht.
  engine_facts.
  assert (eng_snapshot (db_ s1)
            = Some (sql_batch true "vacuum" (eng_store (db_ s))).1) as Hsn
    by (simpl; congruence).
  destruct (transaction_tail_outcome _ _ _ _ _ _ Ht Hsn) as [->|[ex ->]];
    simplify_eq; exists s1, s2; (repeat split; try done);
    simpl; rewrite <- ?app_assoc; try done; congruence.
Qed.

(** ** [destroy] *)

Lemma for_each_cons {A} (x : A) l (body : A -> M Data unit) s :
  for_each (x :: l) body s = bind (body x) (fun _ => for_each l body) s.
Proof. reflexivity. Qed.

Lemma finalize_all_run (body : string * sqlite3_stmt -> M Data unit)
    (l : list (string * sqlite3_stmt)) s :
  (forall x s0,
     body x s0 = bind (sqlite3_finalize x.2) (fun _ => ret tt) s0) ->
  exists s' d,
    for_each l body s = (Returned tt, s')
    /\ trace s' = (trace s ++ d)%list
    /\ calls d = CFinalize <$> l.*2
    /\ Forall is_call d
    /\ same_fields s s'
    /\ eng_store (db_ s') = eng_store (db_ s)
    /\ eng_snapshot (db_ s') = eng_snapshot (db_ s).
Proof.
  intros Hbody. revert s. induction l as [|[k st] l IH]; intros s.
  - exists s, []. simpl. by rewrite app_nil_r.
  - rewrite for_each_cons, bind_run, Hbody.
    rewrite bind_run. unfold sqlite3_finalize. rewrite call_run.
    cbn [fst snd ret]. set (s1 := log _ _).
    destruct (IH s1) as (s' & d & -> & Htr & Hc & Hd & Hf & Hst & Hsn).
    exists s', (EvCall (CFinalize st) (eng_finalize st (db_ s)).1 :: d).
    split; [done|]. rewrite Htr. subst s1. simpl.
    rewrite <- app_assoc. simpl. rewrite Hc.
    destruct Hf as (Hf1 & Hf2 & Hf3). simpl in *.
    repeat split; try done; try (by constructor).
    + rewrite Hst. unfold eng_finalize, take_fault.
      by destruct (eng_faults (db_ s)).
    + rewrite Hsn. unfold eng_finalize, take_fault.
      by destruct (eng_faults (db_ s)).
Qed.

(** The first [destroy] of a live object. *)
Lemma destroy_live s :
  isDestroyed_ s = false ->
  exists s' d,
    destroy s = (Returned tt, s')
    /\ trace s' = (trace s ++ EvLock :: d
                           ++ [EvCall CClose true; EvUnlock])%list
    /\ calls d = CFinalize <$> (map_to_list (cachedStatements_ s)).*2
    /\ Forall is_call d
    /\ isDestroyed_ s' = true
    /\ cachedStatements_ s' = ∅
    /\ cachedRecords_ s' = cachedRecords_ s
    /\ eng_closed (db_ s') = true.
Proof.
  intros Hlive. unfold destroy, lock_guard.
  rewrite bind_run. unfold gets at 1. simpl. rewrite Hlive.
  rewrite bind_run. unfold modify at 1. rewrite bind_run. unfold gets at 1.
  simpl. rewrite bind_run.
  set (s1 := set_isDestroyed_ true (log EvLock s)).
  match goal with
  | |- context [for_each ?l ?body s1] =>
      destruct (finalize_all_run body l s1 (fun _ _ => eq_refl))
        as (s2 & d & -> & Htr & Hc & Hd & (Hf1 & Hf2 & Hf3) & _)
  end.
  rewrite bind_run. unfold modify at 1. unfold db_destroy.
  rewrite bind_run, call_run. simpl.
  eexists _, d. split; [done|]. simpl. rewrite Htr. subst s1. simpl.
  rewrite <- !app_assoc. simpl. by rewrite Hf3.
Qed.

(** Every later [destroy]. *)
Lemma destroy_destroyed s :
  isDestroyed_ s = true ->
  destroy s = (Returned tt, lock_unlock s).
Proof.
  intros Hd. unfold destroy, lock_guard. rewrite bind_run.
  unfold gets at 1. simpl. by rewrite Hd.
Qed.





(** C6. After a [unsafeResetDatabase] that returns, reading the schema
    version gives the [schemaVersion] that was passed, and no key is in the
    record cache, so [isCached] is false for every key marked before. *)
Theorem reset_sets_version_and_clears_cache (schema : string)
    (schemaVersion : Z) s s' :
  unsafeResetDatabase sql_batch schema schemaVersion s = (Returned tt, s') ->
  getUserVersion s'
    = (Returned schemaVersion, log (EvCall CGetUserVersion true) s')
  /\ forall cacheKey, isCached cacheKey s' = (Returned false, s').
Proof.
  intros H.
  apply unsafeResetDatabase_run in H
    as [(ex' & pre & ? & _)|(s1 & s2 & Ht & -> & Htr1 & Hsn & Hcr & _)];
    [done|].
  apply transaction_tail_run
    with (st0 := (sql_batch true "vacuum" (eng_store (db_ s))).1) in Ht
    as ((_ & _ & Hcr2) & Ht); [|done].
  destruct Ht as [(_ & _ & Hv & _ & Hopen)|(mid & c & ok & _ & _ & _ & ? & _)];
    [|done].
  split.
  - rewrite getUserVersion_open by done. simpl. by rewrite Hv.
  - intros k. unfold isCached. rewrite bind_run. unfold gets. simpl.
    rewrite Hcr2, Hcr. unfold ret. f_equal.
Qed.

Ltac finish_guard m :=
  exists (EvLock :: m ++ [EvUnlock])%list; split;
  [ simpl; rewrite <- ?app_assoc; simpl; rewrite <- ?app_assoc; done
  | exists m; split; [done|];
    repeat first [ apply Forall_cons; split; [done|]
                 | apply Forall_app; split; [done|] ];
    try done; by repeat constructor ].

(** C3 (as amended). [destroy], [unsafeResetDatabase] and [migrate] take
    [mutex_] on entry and hold it until they return or throw: their events
    are one acquisition, calls on the handle, one release.  [isCached],
    [markAsCached] and [removeFromCache] do not take it: they add no event
    at all. *)
Theorem guard_held_by_destroy_reset_migrate :
  (forall s r s',
     destroy s = (r, s') ->
     exists d, trace s' = (trace s ++ d)%list /\ under_guard d)
  /\ (forall schema schemaVersion s r s',
        unsafeResetDatabase sql_batch schema schemaVersion s = (r, s') ->
        exists d, trace s' = (trace s ++ d)%list /\ under_guard d)
  /\ (forall cfg migrationSql fromVersion toVersion s r s',
        migrate sql_batch cfg migrationSql fromVersion toVersion s = (r, s') ->
        (forall msg, r <> Aborted msg) ->
        exists d, trace s' = (trace s ++ d)%list /\ under_guard d)
  /\ (forall cacheKey s,
        trace (isCached cacheKey s).2 = trace s
        /\ trace (markAsCached cacheKey s).2 = trace s
        /\ trace (removeFromCache cacheKey s).2 = trace s).
Proof.
  split; [|split; [|split]].
  - intros s r s' H. destruct (isDestroyed_ s) eqn:Hd.
    + rewrite destroy_destroyed in H by done. simplify_eq.
      simpl. rewrite <- app_assoc. finish_guard (@nil Event).
    + destruct (destroy_live s Hd) as (s1 & d & Hrun & Htr & _ & Hcalls & _).
      rewrite Hrun in H. simplify_eq. rewrite Htr.
      finish_guard (d ++ [EvCall CClose true])%list.
  - intros schema v s r s' H.
    apply unsafeResetDatabase_run in H
      as [(ex' & pre & _ & Htr' & Hpre & _)
         |(s1 & s2 & Ht & -> & Htr1 & Hsn & _)].
    { rewrite Htr'. finish_guard pre. }
    apply transaction_tail_run
      with (st0 := (sql_batch true "vacuum" (eng_store (db_ s))).1) in Ht
      as (_ & Ht); [|done].
    destruct Ht as [(_ & Htr2 & _)|(mid & c & ok & Htr2 & Hmid & _)];
      simpl; rewrite Htr2, Htr1, <- !app_assoc; simpl.
    + finish_guard [EvCall (CDbConfigResetDatabase true) true;
                    EvCall (CExecuteMultiple "vacuum") true;
                    EvCall (CDbConfigResetDatabase false) true;
                    EvCall CBeginTransaction true;
                    EvCall (CExecuteMultiple schema) true;
                    EvCall (CSetUserVersion v) true; EvCall CCommit true].
    + finish_guard ([EvCall (CDbConfigResetDatabase true) true;
                     EvCall (CExecuteMultiple "vacuum") true;
                     EvCall (CDbConfigResetDatabase false) true;
                     EvCall CBeginTransaction true]
                    ++ mid ++ [EvCall c false; EvCall CRollback ok])%list.
  - intros cfg sql from to s r s' H Hna.
    apply migrate_run in H
      as [(_ & Htr' & _)|[(_ & _ & ? & _)|(s1 & s2 & pre & Ht & -> & Htr1 & Hpre
                                        & Hsn & _)]]; [| |].
    { rewrite Htr'. finish_guard [EvCall CBeginTransaction false]. }
    { by destruct (Hna "Incompatible migration set"). }
    apply transaction_tail_run with (st0 := eng_store (db_ s)) in Ht
      as (_ & Ht); [|done].
    destruct Ht as [(_ & Htr2 & _)|(mid & c & ok & Htr2 & Hmid & _)];
      simpl; rewrite Htr2, Htr1, <- !app_assoc; simpl.
    + finish_guard (EvCall CBeginTransaction true
                    :: pre ++ [EvCall (CExecuteMultiple sql) true;
                               EvCall (CSetUserVersion to) true;
                               EvCall CCommit true])%list.
    + finish_guard (EvCall CBeginTransaction true
                    :: pre ++ mid ++ [EvCall c false; EvCall CRollback ok])%list.
  - done.
Qed.

(** C4 (as amended). On an object whose [isDestroyed_] flag is set, a
    further [destroy] and the three cache calls leave the handle alone: the
    handle is unchanged and no call on it is recorded.  [migrate] and
    [unsafeResetDatabase] do not read the flag: whatever the state of the
    object, the first thing each does under the guard is a call on the
    handle. *)
Theorem destroyed_object_and_the_handle s :
  isDestroyed_ s = true ->
  (db_ (destroy s).2 = db_ s
   /\ trace (destroy s).2 = (trace s ++ [EvLock; EvUnlock])%list)
  /\ (forall cacheKey,
        (db_ (isCached cacheKey s).2 = db_ s
         /\ trace (isCached cacheKey s).2 = trace s)
        /\ (db_ (markAsCached cacheKey s).2 = db_ s
            /\ trace (markAsCached cacheKey s).2 = trace s)
        /\ (db_ (removeFromCache cacheKey s).2 = db_ s
            /\ trace (removeFromCache cacheKey s).2 = trace s))
  /\ (forall cfg migrationSql fromVersion toVersion,
        exists ok rest,
          trace (migrate sql_batch cfg migrationSql fromVersion toVersion s).2
            = (trace s ++ EvLock :: EvCall CBeginTransaction ok :: rest)%list)
  /\ (forall schema schemaVersion,
        exists ok rest,
          trace (unsafeResetDatabase sql_batch schema schemaVersion s).2
            = (trace s ++ EvLock
                 :: EvCall (CDbConfigResetDatabase true) ok :: rest)%list).
Proof.
  intros Hd. split; [|split; [done|split]].
  - rewrite destroy_destroyed by done. simpl. by rewrite <- app_assoc.
  - intros cfg sql from to.
    destruct (migrate sql_batch cfg sql from to s) as [r s'] eqn:H.
    apply migrate_run in H
      as [(_ & Htr' & _)|[(_ & _ & _ & Htr')|(s1 & s2 & pre & Ht & -> & Htr1
                                             & Hpre & Hsn & _)]]; simpl.
    + rewrite Htr'. by eexists _, _.
    + rewrite Htr'. by eexists _, _.
    + apply transaction_tail_run with (st0 := eng_store (db_ s)) in Ht
        as (_ & Ht); [|done].
      destruct Ht as [(_ & Htr2 & _)|(mid & c & ok & Htr2 & Hmid & _)];
        rewrite Htr2, Htr1, <- !app_assoc; simpl; by eexists _, _.
  - intros schema v.
    destruct (unsafeResetDatabase sql_batch schema v s) as [r s'] eqn:H.
    apply unsafeResetDatabase_run in H
      as [(ex' & pre & _ & Htr' & _ & _ & (ok & rest & ->) & _)
         |(s1 & s2 & Ht & -> & Htr1 & Hsn & _)]; simpl.
    + rewrite Htr'. by eexists _, _.
    + apply transaction_tail_run
        with (st0 := (sql_batch true "vacuum" (eng_store (db_ s))).1) in Ht
        as (_ & Ht); [|done].
      destruct Ht as [(_ & Htr2 & _)|(mid & c & ok & Htr2 & Hmid & _)];
        rewrite Htr2, Htr1, <- !app_assoc; simpl; by eexists _, _.
Qed.



(** C8. After any sequence of cache calls, [isCached key] tells whether the
    most recent call that changed [key] was [markAsCached] (and what the
    cache held before when no call changed it); it leaves the object as it
    is.  Marking twice is marking once, and removing an absent key changes
    nothing. *)
Theorem cache_reflects_last_mutation (key : string) (ops : list CacheOp) s :
  isCached key (run_cache_ops ops s)
    = (Returned match last_mutation key ops with
                | Some b => b
                | None => bool_decide (key ∈ cachedRecords_ s)
                end,
       run_cache_ops ops s)
  /\ markAsCached key (markAsCached key s).2 = markAsCached key s
  /\ (key ∉ cachedRecords_ s -> removeFromCache key s = (Returned tt, s))
  /\ removeFromCache key (removeFromCache key s).2 = removeFromCache key s.
Proof.
  clear sql_batch. split; [|split; [|split]].
  - revert s. induction ops as [|op ops IH]; intros s; [done|].
    cbn [run_cache_ops foldl]. fold (run_cache_ops ops (run_cache_op op s)).
    rewrite IH. cbn [last_mutation].
    destruct (last_mutation key ops); [done|].
    do 2 f_equal. destruct op as [k|k|k]; simpl; [done| |];
      case_decide; subst;
      first [ apply bool_decide_eq_true_2 | apply bool_decide_eq_false_2
            | apply bool_decide_ext ];
      set_unfold; intuition congruence.
  - destruct s as [e dd cs cr tr].
    unfold markAsCached, modify, set_cachedRecords_. simpl.
    replace ({[key]} ∪ ({[key]} ∪ cr)) with ({[key]} ∪ cr); [done|].
    apply set_eq. intros x. set_unfold. intuition congruence.
  - intros Hk. destruct s as [e dd cs cr tr].
    unfold removeFromCache, modify, set_cachedRecords_. simpl in *.
    replace (cr ∖ {[key]}) with cr; [done|].
    apply set_eq. intros x. set_unfold. intuition congruence.
  - destruct s as [e dd cs cr tr].
    unfold removeFromCache, modify, set_cachedRecords_. simpl.
    replace (cr ∖ {[key]} ∖ {[key]}) with (cr ∖ {[key]}); [done|].
    apply set_eq. intros x. set_unfold. intuition congruence.
Qed.

End Proofs.

(** ** The pragma script *)

Lemma string_app_cons (a : ascii) (s t : string) :
  String a s +:+ t = String a (s +:+ t).
Proof. reflexivity. Qed.

Lemma string_app_assoc (s t u : string) : (s +:+ t) +:+ u = s +:+ (t +:+ u).
Proof.
  induction s as [|a s IH]; [done|]. by rewrite !string_app_cons, IH.
Qed.

Lemma initSql_with_password cfg password usesExclusiveLocking :
  SQLITE_HAS_CODEC cfg = true ->
  password <> "" ->
  initSql cfg password usesExclusiveLocking
    = cipher_pragmas password
      +:+ initSql (without_codec cfg) password usesExclusiveLocking.
Proof.
  intros Hcodec Hpw. destruct cfg as [codec android ndebug].
  simpl in Hcodec. subst codec.
  destruct password as [|a p]; [done|].
  unfold initSql, cipher_pragmas, without_codec.
  cbn [SQLITE_HAS_CODEC ANDROID empty negb]. cbv zeta.
  destruct android, usesExclusiveLocking;
    rewrite ?string_app_assoc; reflexivity.
Qed.

(** Inside a literal, text without a quote stays in the current statement. *)
Lemma statements_inside_literal p rest x l :
  has_quote p = false ->
  statements true rest = x :: l ->
  statements true (p +:+ rest) = (p +:+ x) :: l.
Proof.
  intros Hq Hrest. induction p as [|c p IH]; [done|].
  simpl in Hq. apply orb_false_iff in Hq as [Hc Hq].
  rewrite string_app_cons. cbn [statements]. rewrite Hc.
  rewrite andb_false_r. by rewrite IH.
Qed.

(** What follows the password in [cipher_pragmas]. *)
Lemma cipher_pragmas_split password :
  cipher_pragmas password
    = ("PRAGMA key = '" +:+ password)
      +:+ "';PRAGMA cipher_page_size = 4096;PRAGMA kdf_iter = 64000;PRAGMA cipher_memory_security = ON;PRAGMA cipher_default_use_hmac = ON;PRAGMA cipher_compatibility = 4;".
Proof. unfold cipher_pragmas. by rewrite !string_app_assoc. Qed.







(** ** The theorems at concrete inputs *)

Lemma migrate_version_mismatch_aborts_witness :
  NDEBUG Toy.debug_build = false
  /\ (eng_begin (db_ (Toy.session 3 []))).1 = true
  /\ st_user_version (eng_store (db_ (Toy.session 3 []))) <> 1
  /\ exists s',
       migrate Toy.sql_batch Toy.debug_build "ALTER TABLE posts ADD c" 1 2
         (Toy.session 3 [])
         = (Aborted "Incompatible migration set", s')
       /\ trace s' = (trace (Toy.session 3 [])
                      ++ [EvLock; EvCall CBeginTransaction true;
                          EvCall CGetUserVersion true])%list
       /\ calls (drop (length (trace (Toy.session 3 []))) (trace s'))
            = [CBeginTransaction; CGetUserVersion]
       /\ eng_store (db_ s') = eng_store (db_ (Toy.session 3 []))
       /\ cachedRecords_ s' = cachedRecords_ (Toy.session 3 []).
Proof.
  split; [reflexivity|]. split; [reflexivity|]. split; [discriminate|].
  apply (migrate_version_mismatch_aborts Toy.sql_batch Toy.debug_build
           "ALTER TABLE posts ADD c" 1 2 (Toy.session 3 []));
    [reflexivity|reflexivity|discriminate].
Defined.

(** C1, where it fails.  The object holds schema version 3 and the call
    says [fromVersion = 1].  In a build with [NDEBUG] the call returns, the
    batch has run and the version is 2.  In a build with assertions, when
    [BEGIN] itself fails the call throws that error and not the assertion. *)
Lemma migrate_version_mismatch_unchecked :
  st_user_version (eng_store (db_ (Toy.session 3 []))) <> 1
  /\ (migrate Toy.sql_batch Toy.release_build "ALTER TABLE posts ADD c" 1 2
        (Toy.session 3 [])).1 = Returned tt
  /\ calls (trace (migrate Toy.sql_batch Toy.release_build
                     "ALTER TABLE posts ADD c" 1 2 (Toy.session 3 [])).2)
       = [CBeginTransaction; CExecuteMultiple "ALTER TABLE posts ADD c";
          CSetUserVersion 2; CCommit]
  /\ eng_store (db_ (migrate Toy.sql_batch Toy.release_build
                       "ALTER TABLE posts ADD c" 1 2 (Toy.session 3 [])).2)
       = {| st_data := ["CREATE TABLE posts(id)"; "ALTER TABLE posts ADD c"];
            st_user_version := 2 |}
  /\ (migrate Toy.sql_batch Toy.debug_build "ALTER TABLE posts ADD c" 1 2
        (Toy.session 3 [true])).1 = Threw (SqliteError CBeginTransaction).
Proof. split; [discriminate|]. repeat split; by vm_compute. Qed.

(** C2, where it fails.  A reset whose schema batch fails is rolled back
    and rethrows, yet the key that was cached is gone and the table that
    existed is gone: the rollback goes back to the vacuumed file.  And when
    the rollback of a failed [migrate] fails itself, its error is the one
    thrown and the half-applied batch stays. *)
Lemma reset_failure_does_not_restore :
  (unsafeResetDatabase Toy.sql_batch Toy.bad_batch 5 (Toy.session 1 [])).1
    = Threw (SqliteError (CExecuteMultiple Toy.bad_batch))
  /\ trace (unsafeResetDatabase Toy.sql_batch Toy.bad_batch 5
              (Toy.session 1 [])).2
       = [EvLock; EvCall (CDbConfigResetDatabase true) true;
          EvCall (CExecuteMultiple "vacuum") true;
          EvCall (CDbConfigResetDatabase false) true;
          EvCall CBeginTransaction true;
          EvCall (CExecuteMultiple Toy.bad_batch) false;
          EvCall CRollback true; EvUnlock]
  /\ cachedRecords_ (Toy.session 1 []) = {[ "posts$p1" ]}
  /\ cachedRecords_ (unsafeResetDatabase Toy.sql_batch Toy.bad_batch 5
                       (Toy.session 1 [])).2 = ∅
  /\ eng_store (db_ (Toy.session 1 []))
       = {| st_data := ["CREATE TABLE posts(id)"]; st_user_version := 1 |}
  /\ eng_store (db_ (unsafeResetDatabase Toy.sql_batch Toy.bad_batch 5
                       (Toy.session 1 [])).2)
       = {| st_data := []; st_user_version := 0 |}
  /\ (migrate Toy.sql_batch Toy.release_build Toy.bad_batch 1 2
        (Toy.session 1 [false; false; true])).1
       = Threw (SqliteError CRollback)
  /\ eng_store (db_ (migrate Toy.sql_batch Toy.release_build Toy.bad_batch
                       1 2 (Toy.session 1 [false; false; true])).2)
       = {| st_data := ["CREATE TABLE posts(id)";
                        "CREATE TABLE t(id INTEGER)"];
            st_user_version := 1 |}.
Proof. repeat split; by vm_compute. Qed.

Lemma guard_held_by_destroy_reset_migrate_witness :
  (exists d,
     trace (destroy (Toy.session 1 [])).2
       = (trace (Toy.session 1 []) ++ d)%list /\ under_guard d)
  /\ (exists d,
        trace (migrate Toy.sql_batch Toy.release_build Toy.bad_batch 1 2
                 (Toy.session 1 [])).2
          = (trace (Toy.session 1 []) ++ d)%list /\ under_guard d)
  /\ trace (markAsCached "posts$p2" (Toy.session 1 [])).2
       = trace (Toy.session 1 []).
Proof.
  pose proof (guard_held_by_destroy_reset_migrate Toy.sql_batch)
    as (Hd & _ & Hm & Hc).
  split; [|split].
  - by eapply (Hd (Toy.session 1 []) (Returned tt)); vm_compute.
  - eapply (Hm Toy.release_build Toy.bad_batch 1 2 (Toy.session 1 [])
              (Threw (SqliteError (CExecuteMultiple Toy.bad_batch))));
      [by vm_compute|done].
  - apply Hc.
Defined.

(** C3, where it fails.  The three cache calls on an object with an empty
    trace: the record cache is read and changed, and no acquisition of
    [mutex_] is recorded. *)
Lemma cache_calls_take_no_guard :
  trace (Toy.session 1 []) = []
  /\ (isCached "posts$p1" (Toy.session 1 [])).1 = Returned true
  /\ (EvLock ∉ trace (isCached "posts$p1" (Toy.session 1 [])).2)
  /\ cachedRecords_ (markAsCached "posts$p2" (Toy.session 1 [])).2
       = {[ "posts$p1"; "posts$p2" ]}
  /\ (EvLock ∉ trace (markAsCached "posts$p2" (Toy.session 1 [])).2)
  /\ cachedRecords_ (removeFromCache "posts$p1" (Toy.session 1 [])).2 = ∅
  /\ EvLock ∉ trace (removeFromCache "posts$p1" (Toy.session 1 [])).2.
Proof.
  repeat split; try (by vm_compute); simpl; set_solver.
Qed.

(** The toy object after one [destroy]. *)
Lemma destroyed_object_and_the_handle_witness :
  isDestroyed_ (destroy (Toy.session 1 [])).2 = true
  /\ db_ (destroy (destroy (Toy.session 1 [])).2).2
       = db_ (destroy (Toy.session 1 [])).2
  /\ trace (destroy (destroy (Toy.session 1 [])).2).2
       = (trace (destroy (Toy.session 1 [])).2 ++ [EvLock; EvUnlock])%list.
Proof.
  split; [by vm_compute|].
  destruct (destroyed_object_and_the_handle Toy.sql_batch
              (destroy (Toy.session 1 [])).2) as [[Hdb Htr] _];
    [by vm_compute|].
  split; [exact Hdb|exact Htr].
Defined.

(** C4, where it fails.  After [destroy] has closed the handle, [migrate]
    still calls [BEGIN] on it and [unsafeResetDatabase] still calls
    [sqlite3_db_config]. *)
Lemma migrate_and_reset_after_destroy_call_the_handle :
  isDestroyed_ (destroy (Toy.session 1 [])).2 = true
  /\ eng_closed (db_ (destroy (Toy.session 1 [])).2) = true
  /\ trace (destroy (Toy.session 1 [])).2
       = [EvLock; EvCall (CFinalize 7%positive) true; EvCall CClose true;
          EvUnlock]
  /\ trace (migrate Toy.sql_batch Toy.debug_build "ALTER TABLE posts ADD c"
              1 2 (destroy (Toy.session 1 [])).2).2
       = [EvLock; EvCall (CFinalize 7%positive) true; EvCall CClose true;
          EvUnlock;
          EvLock; EvCall CBeginTransaction false; EvUnlock]
  /\ trace (unsafeResetDatabase Toy.sql_batch "CREATE TABLE t(id INTEGER)" 5
              (destroy (Toy.session 1 [])).2).2
       = [EvLock; EvCall (CFinalize 7%positive) true; EvCall CClose true;
          EvUnlock;
          EvLock; EvCall (CDbConfigResetDatabase true) false; EvUnlock].
Proof. repeat split; by vm_compute. Qed.


Lemma reset_sets_version_and_clears_cache_witness :
  (unsafeResetDatabase Toy.sql_batch "CREATE TABLE t(id INTEGER)" 5
     (Toy.session 1 [])).1 = Returned tt
  /\ (getUserVersion
        (unsafeResetDatabase Toy.sql_batch "CREATE TABLE t(id INTEGER)" 5
           (Toy.session 1 [])).2).1 = Returned 5
  /\ (isCached "posts$p1"
        (unsafeResetDatabase Toy.sql_batch "CREATE TABLE t(id INTEGER)" 5
           (Toy.session 1 [])).2).1 = Returned false.
Proof.
  split; [reflexivity|].
  destruct (reset_sets_version_and_clears_cache Toy.sql_batch
              "CREATE TABLE t(id INTEGER)" 5 (Toy.session 1 [])
              (unsafeResetDatabase Toy.sql_batch "CREATE TABLE t(id INTEGER)"
                 5 (Toy.session 1 [])).2) as [Hv Hc].
  - by vm_compute.
  - split.
    + exact (f_equal fst Hv).
    + exact (f_equal fst (Hc "posts$p1")).
Defined.


(** The finalization in that run reports an error, and the handle is closed
    all the same. *)
Example destroy_with_failing_finalize :
  trace (destroy (Toy.session 1 [true])).2
    = [EvLock; EvCall (CFinalize 7%positive) false; EvCall CClose true;
       EvUnlock].
Proof. by vm_compute. Qed.



(** What the script with the password [it's] is read as: one statement. *)
Example apostrophe_password_statements :
  statements false (cipher_pragmas "it's")
    = ["PRAGMA key = 'it's';PRAGMA cipher_page_size = 4096;PRAGMA kdf_iter = 64000;PRAGMA cipher_memory_security = ON;PRAGMA cipher_default_use_hmac = ON;PRAGMA cipher_compatibility = 4;"].
Proof. by vm_compute. Qed.

Lemma cache_reflects_last_mutation_witness :
  isCached "posts$p1"
    (run_cache_ops [OpMarkAsCached "posts$p2"; OpRemoveFromCache "posts$p1";
                    OpIsCached "posts$p1"] (Toy.session 1 []))
    = (Returned false,
       run_cache_ops [OpMarkAsCached "posts$p2"; OpRemoveFromCache "posts$p1";
                      OpIsCached "posts$p1"] (Toy.session 1 []))
  /\ removeFromCache "posts$p9" (Toy.session 1 [])
       = (Returned tt, Toy.session 1 []).
Proof.
  pose proof (cache_reflects_last_mutation "posts$p1"
                [OpMarkAsCached "posts$p2"; OpRemoveFromCache "posts$p1";
                 OpIsCached "posts$p1"] (Toy.session 1 [])) as (Hlast & _).
  pose proof (cache_reflects_last_mutation "posts$p9" []
                (Toy.session 1 [])) as (_ & _ & Habsent & _).
  split.
  - exact Hlast.
  - apply Habsent. apply (bool_decide_unpack _). by vm_compute.
Defined.

(** * Further properties of the methods *)

Section MoreProofs.
Context {Data : Type}.
Variable sql_batch : bool -> string -> Store Data -> Store Data * bool.

Implicit Types (s : Database Data) (e : Engine Data) (d : list Event).

Ltac engine_split e :=
  destruct e as [closed rm st sn [|[] fl]];
  unfold eng_db_config_reset, eng_exec, eng_begin, eng_commit, eng_rollback,
    eng_set_user_version, fallible, take_fault, with_store, with_snapshot
    in *;
  simpl in *; repeat (case_match; simplify_eq /=); try done.

Lemma eng_begin_keeps_flags e e1 :
  eng_begin e = (true, e1) -> eng_reset_mode e1 = eng_reset_mode e.
Proof. intros H. engine_split e. Qed.

Lemma eng_set_user_version_data v e e1 :
  eng_set_user_version v e = (true, e1) ->
  eng_store e1 = {| st_data := st_data (eng_store e); st_user_version := v |}
  /\ eng_snapshot e1 = eng_snapshot e.
Proof. intros H. engine_split e. Qed.

Lemma eng_call_failed_store ok e e1 :
  (eng_db_config_reset ok e = (false, e1)
   \/ eng_begin e = (false, e1) \/ eng_commit e = (false, e1)
   \/ eng_rollback e = (false, e1)) ->
  eng_store e1 = eng_store e /\ eng_snapshot e1 = eng_snapshot e
  /\ eng_reset_mode e1 = eng_reset_mode e.
Proof. intros [H|[H|[H|H]]]; engine_split e. Qed.

(** One engine call of a method: its result is named and both cases are
    left to the proof. *)
Ltac step_call H f :=
  rewrite ?try_catch_bind, ?bind_run in H; rewrite checked_run in H;
  simpl in H;
  let e1 := fresh "e" in
  let Hc := fresh "Hc" in
  destruct f as [[] e1] eqn:Hc; simpl in H.

Ltac rolled_back H pre c :=
  injection H as <- <-; split; [done|]; eexists; simpl;
  rewrite <- !app_assoc; split; [done|]; right;
  first [ exists pre, c, true; split; [reflexivity|]
        | exists pre, c, false; split; [reflexivity|] ];
  split; [reflexivity|];
  repeat first [ apply list_elem_of_here | apply list_elem_of_further ].

(** The exact events of the transaction tail. *)
Lemma transaction_tail_shapes sql v s1 r s2 :
  transaction_tail sql_batch sql v s1 = (r, s2) ->
  same_fields s1 s2 /\
  exists t,
    trace s2 = (trace s1 ++ t)%list /\
    ((r = Returned tt
      /\ t = [EvCall (CExecuteMultiple sql) true;
              EvCall (CSetUserVersion v) true; EvCall CCommit true]
      /\ exists e1 e2,
           eng_exec sql_batch sql (db_ s1) = (true, e1)
           /\ eng_set_user_version v e1 = (true, e2)
           /\ eng_commit e2 = (true, db_ s2))
     \/
     (exists (pre : list Event) (c : Call) (ok : bool),
        r = Threw (SqliteError (if ok then c else CRollback))
        /\ t = (pre ++ [EvCall c false; EvCall CRollback ok])%list
        /\ (pre, c) ∈
             [ (@nil Event, CExecuteMultiple sql);
               ([EvCall (CExecuteMultiple sql) true], CSetUserVersion v);
               ([EvCall (CExecuteMultiple sql) true;
                 EvCall (CSetUserVersion v) true], CCommit) ])).
Proof.
  intros H. destruct s1 as [e dd cs cr tr]. simpl.
  unfold transaction_tail, executeMultiple, setUserVersion, commit, rollback
    in H.
  step_call H (eng_exec sql_batch sql e).
  - step_call H (eng_set_user_version v e0).
    + unfold try_catch in H. rewrite checked_run in H. simpl in H.
      destruct (eng_commit e1) as [[] e2] eqn:Hc1; simpl in H.
      * injection H as <- <-. split; [done|]. eexists. simpl.
        rewrite <- !app_assoc. split; [done|]. left.
        split; [done|]. split; [done|]. exists e0, e1. by repeat split.
      * step_call H (eng_rollback e2);
          rolled_back H [EvCall (CExecuteMultiple sql) true;
                         EvCall (CSetUserVersion v) true] CCommit.
    + step_call H (eng_rollback e1);
        rolled_back H [EvCall (CExecuteMultiple sql) true]
          (CSetUserVersion v).
  - step_call H (eng_rollback e0);
      rolled_back H (@nil Event) (CExecuteMultiple sql).
Qed.

(** Every way a [migrate] can go, with the engine results that lead there. *)
Lemma migrate_shapes cfg sql (from to : Z) s r s' :
  migrate sql_batch cfg sql from to s = (r, s') ->
  same_fields s s' /\
  ((r = Threw (SqliteError CBeginTransaction)
    /\ trace s' = (trace s ++ [EvLock; EvCall CBeginTransaction false;
                                EvUnlock])%list
    /\ eng_begin (db_ s) = (false, db_ s'))
   \/
   (NDEBUG cfg = false
    /\ st_user_version (eng_store (db_ s)) <> from
    /\ r = Aborted "Incompatible migration set"
    /\ trace s' = (trace s ++ [EvLock; EvCall CBeginTransaction true;
                                EvCall CGetUserVersion true])%list
    /\ (eng_begin (db_ s)).1 = true)
   \/
   (exists s1 s2,
      eng_begin (db_ s) = (true, db_ s1)
      /\ (NDEBUG cfg = false -> st_user_version (eng_store (db_ s)) = from)
      /\ transaction_tail sql_batch sql to s1 = (r, s2)
      /\ s' = log EvUnlock s2
      /\ trace s1 = (trace s ++ [EvLock; EvCall CBeginTransaction true]
                             ++ (if NDEBUG cfg then []
                                 else [EvCall CGetUserVersion true]))%list)).
Proof.
  intros H. unfold migrate, lock_guard in H. rewrite bind_run in H.
  unfold beginTransaction in H. rewrite checked_run in H. simpl in H.
  destruct (eng_begin (db_ s)) as [[] e1] eqn:Hb; simpl in H.
  2: { injection H as <- <-. split; [done|]. left. simpl.
       by rewrite <- !app_assoc. }
  rewrite try_catch_bind in H.
  pose proof (eng_begin_true _ _ Hb) as (Hopen & _ & Hst & Hsn & _).
  rewrite assert_run in H by done.
  change (try_catch _ _) with (transaction_tail sql_batch sql to) in H.
  set (s1 := log (EvCall CBeginTransaction true) _) in H.
  assert (trace s1 = (trace s ++ [EvLock; EvCall CBeginTransaction true])%list)
    as Htr1 by (simpl; by rewrite <- !app_assoc).
  destruct (NDEBUG cfg) eqn:Hn.
  - destruct (transaction_tail sql_batch sql to s1) as [r2 s2] eqn:Ht.
    pose proof (transaction_tail_shapes _ _ _ _ _ Ht) as (Hsame & _).
    destruct (transaction_tail_outcome _ _ _ _ _ _ _ Ht Hsn) as [->|[ex ->]];
      injection H as <- <-; (split; [done|]); right; right;
      exists s1, s2; by rewrite app_nil_r.
  - simpl in H. rewrite Hst in H.
    destruct (_ =? from) eqn:Hv.
    2: { apply Z.eqb_neq in Hv. injection H as <- <-. split; [done|].
         right; left. simpl. by rewrite <- !app_assoc. }
    apply Z.eqb_eq in Hv.
    set (s1' := log (EvCall CGetUserVersion true) s1) in H.
    destruct (transaction_tail sql_batch sql to s1') as [r2 s2] eqn:Ht.
    pose proof (transaction_tail_shapes _ _ _ _ _ Ht) as (Hsame & _).
    destruct (transaction_tail_outcome _ _ _ _ _ _ _ Ht Hsn) as [->|[ex ->]];
      injection H as <- <-; (split; [done|]); right; right;
      exists s1', s2; (repeat split; try done);
      simpl; by rewrite <- !app_assoc.
Qed.

(** Every way an [unsafeResetDatabase] can go, with the engine results
    that lead there. *)
Lemma unsafeResetDatabase_shapes schema (v : Z) s r s' :
  unsafeResetDatabase sql_batch schema v s = (r, s') ->
  (isDestroyed_ s' = isDestroyed_ s
   /\ cachedStatements_ s' = cachedStatements_ s) /\
  ((exists e1,
      eng_db_config_reset true (db_ s) = (false, e1)
      /\ r = Threw (JSError "Failed to enable reset database mode")
      /\ trace s' = (trace s ++ [EvLock;
                       EvCall (CDbConfigResetDatabase true) false;
                       EvUnlock])%list
      /\ db_ s' = e1 /\ cachedRecords_ s' = cachedRecords_ s)
   \/
   (exists e1 e2,
      eng_db_config_reset true (db_ s) = (true, e1)
      /\ eng_exec sql_batch "vacuum" e1 = (false, e2)
      /\ r = Threw (SqliteError (CExecuteMultiple "vacuum"))
      /\ trace s' = (trace s ++ [EvLock;
                       EvCall (CDbConfigResetDatabase true) true;
                       EvCall (CExecuteMultiple "vacuum") false;
                       EvUnlock])%list
      /\ db_ s' = e2 /\ cachedRecords_ s' = cachedRecords_ s)
   \/
   (exists e1 e2 e3,
      eng_db_config_reset true (db_ s) = (true, e1)
      /\ eng_exec sql_batch "vacuum" e1 = (true, e2)
      /\ eng_db_config_reset false e2 = (false, e3)
      /\ r = Threw (JSError "Failed to disable reset database mode")
      /\ trace s' = (trace s ++ [EvLock;
                       EvCall (CDbConfigResetDatabase true) true;
                       EvCall (CExecuteMultiple "vacuum") true;
                       EvCall (CDbConfigResetDatabase false) false;
                       EvUnlock])%list
      /\ db_ s' = e3 /\ cachedRecords_ s' = cachedRecords_ s)
   \/
   (exists e1 e2 e3 e4,
      eng_db_config_reset true (db_ s) = (true, e1)
      /\ eng_exec sql_batch "vacuum" e1 = (true, e2)
      /\ eng_db_config_reset false e2 = (true, e3)
      /\ eng_begin e3 = (false, e4)
      /\ r = Threw (SqliteError CBeginTransaction)
      /\ trace s' = (trace s ++ [EvLock;
                       EvCall (CDbConfigResetDatabase true) true;
                       EvCall (CExecuteMultiple "vacuum") true;
                       EvCall (CDbConfigResetDatabase false) true;
                       EvCall CBeginTransaction false;
                       EvUnlock])%list
      /\ db_ s' = e4 /\ cachedRecords_ s' = cachedRecords_ s)
   \/
   (exists e1 e2 e3 s1 s2,
      eng_db_config_reset true (db_ s) = (true, e1)
      /\ eng_exec sql_batch "vacuum" e1 = (true, e2)
      /\ eng_db_config_reset false e2 = (true, e3)
      /\ eng_begin e3 = (true, db_ s1)
      /\ cachedRecords_ s1 = ∅
      /\ transaction_tail sql_batch schema v s1 = (r, s2)
      /\ s' = log EvUnlock s2
      /\ trace s1 = (trace s ++ [EvLock;
                       EvCall (CDbConfigResetDatabase true) true;
                       EvCall (CExecuteMultiple "vacuum") true;
                       EvCall (CDbConfigResetDatabase false) true;
                       EvCall CBeginTransaction true])%list)).
Proof.
  intros H. unfold unsafeResetDatabase, lock_guard in H.
  unfold sqlite3_db_config_reset_database, executeMultiple,
    beginTransaction in H.
  rewrite bind_run, call_run in H. simpl in H.
  destruct (eng_db_config_reset true (db_ s)) as [[] e1] eqn:H1;
    simpl in H.
  2: { injection H as <- <-. split; [done|]. left. exists e1. simpl.
       by rewrite <- !app_assoc. }
  rewrite bind_ret, bind_run, checked_run in H. simpl in H.
  destruct (eng_exec sql_batch "vacuum" e1) as [[] e2] eqn:H2; simpl in H.
  2: { injection H as <- <-. split; [done|]. right; left. exists e1, e2.
       simpl. by rewrite <- !app_assoc. }
  rewrite bind_run, call_run in H. simpl in H.
  destruct (eng_db_config_reset false e2) as [[] e3] eqn:H3; simpl in H.
  2: { injection H as <- <-. split; [done|]. do 2 right; left.
       exists e1, e2, e3. simpl. by rewrite <- !app_assoc. }
  rewrite bind_ret, bind_run, checked_run in H. simpl in H.
  destruct (eng_begin e3) as [[] e4] eqn:H4; simpl in H.
  2: { injection H as <- <-. split; [done|]. do 3 right; left.
       exists e1, e2, e3, e4. simpl. by rewrite <- !app_assoc. }
  rewrite try_catch_bind in H. unfold modify at 1 in H.
  change (try_catch _ _) with (transaction_tail sql_batch schema v) in H.
  set (s1 := set_cachedRecords_ _ _) in H.
  destruct (transaction_tail sql_batch schema v s1) as [r2 s2] eqn:Ht.
  pose proof (transaction_tail_shapes _ _ _ _ _ Ht) as ((Hd & Hcs & _) & _).
  pose proof (eng_begin_true _ _ H4) as (_ & _ & _ & Hsn & _).
  destruct (transaction_tail_outcome _ _ _ _ _ _ _ Ht Hsn) as [->|[ex ->]];
    injection H as <- <-; (split; [done|]); do 4 right;
    exists e1, e2, e3, s1, s2; (repeat split; try done);
    simpl; by rewrite <- !app_assoc.
Qed.

Lemma db_log ev s : db_ (log ev s) = db_ s.
Proof. done. Qed.

(** X2. A [migrate] that returns has committed: the schema version is
    [toVersion], the data is what the batch made of the data before the
    call, and no transaction is left open.  In a build that keeps
    assertions the version before the call was [fromVersion]. *)
Theorem migrate_returns_committed cfg migrationSql (fromVersion toVersion : Z)
    s s' :
  migrate sql_batch cfg migrationSql fromVersion toVersion s
    = (Returned tt, s') ->
  eng_store (db_ s')
    = {| st_data :=
           st_data (sql_batch (eng_reset_mode (db_ s)) migrationSql
                      (eng_store (db_ s))).1;
         st_user_version := toVersion |}
  /\ eng_snapshot (db_ s') = None
  /\ getUserVersion s'
       = (Returned toVersion, log (EvCall CGetUserVersion true) s')
  /\ (NDEBUG cfg = false ->
        st_user_version (eng_store (db_ s)) = fromVersion).
Proof.
  intros H.
  apply migrate_shapes in H
    as (_ & [(? & _)|[(_ & _ & ? & _)|(s1 & s2 & Hb & Hfrom & Ht & -> & _)]]);
    [done|done|].
  apply transaction_tail_shapes in Ht
    as (_ & t & _ & [(_ & _ & e1 & e2 & Hx & Hv & Hc)
                    |(pre & c & ok & ? & _)]); [|done].
  rewrite db_log.
  pose proof (eng_begin_keeps_flags _ _ Hb) as Hrm.
  pose proof (eng_begin_true _ _ Hb) as (_ & _ & Hst & _).
  pose proof (eng_exec_true _ _ _ _ Hx) as (_ & Hst1).
  pose proof (eng_set_user_version_data _ _ _ Hv) as (Hst2 & _).
  pose proof (eng_commit_true _ _ Hc) as (Hst3 & Hsn & Hopen).
  assert (eng_store (db_ s2)
          = {| st_data :=
                 st_data (sql_batch (eng_reset_mode (db_ s)) migrationSql
                            (eng_store (db_ s))).1;
               st_user_version := toVersion |}) as Hstore.
  { rewrite Hst3, Hst2, Hst1, Hrm, Hst. done. }
  split; [done|]. split; [done|]. split; [|done].
  rewrite getUserVersion_open by done. rewrite db_log, Hstore. done.
Qed.

(** Splits a membership in an explicit list into its cases. *)
Ltac list_cases H :=
  repeat (apply elem_of_cons in H as [H|H]; [try discriminate H|]);
  try (apply elem_of_nil in H; destruct H).

Ltac in_list :=
  repeat first [ apply list_elem_of_here | apply list_elem_of_further ].

(** Commit and rollback in the transaction tail. *)
Lemma tail_commit_or_rollback sql v s1 r s2 :
  transaction_tail sql_batch sql v s1 = (r, s2) ->
  exists t,
    trace s2 = (trace s1 ++ t)%list
    /\ (r = Returned tt <-> EvCall CCommit true ∈ t)
    /\ (EvCall CCommit true ∈ t -> forall ok, EvCall CRollback ok ∉ t)
    /\ (r <> Returned tt -> exists ok, EvCall CRollback ok ∈ t)
    /\ (forall ok, EvCall CBeginTransaction ok ∉ t)
    /\ Forall is_call t.
Proof.
  intros H. apply transaction_tail_shapes in H
    as (_ & t & Htr & [(-> & Ht & _)|(pre & c & ok & -> & Ht & Hin)]);
    exists t; (split; [done|]); subst t.
  - split; [split; [intros _; in_list|done]|].
    split; [intros _ ok Hin; by list_cases Hin|].
    split; [done|]. split; [intros ok Hin; by list_cases Hin|].
    by repeat constructor.
  - list_cases Hin; injection Hin as -> ->; simpl;
      (split; [split; [done|intros Hin; by list_cases Hin]|]);
      (split; [intros Hin; by list_cases Hin|]);
      (split; [intros _; exists ok; in_list|]);
      (split; [intros ok' Hin; by list_cases Hin|]);
      by repeat constructor.
Qed.

Lemma elem_of_around x (pre t : list Event) :
  x ∉ pre -> x <> EvUnlock ->
  x ∈ (pre ++ t ++ [EvUnlock])%list <-> x ∈ t.
Proof.
  intros Hpre Hx. rewrite !elem_of_app, list_elem_of_singleton. tauto.
Qed.

(** The events of a run that reached the transaction tail. *)
Lemma delta_around_tail s s1 s2 s' (pre t d : list Event) :
  trace s1 = (trace s ++ pre)%list ->
  trace s2 = (trace s1 ++ t)%list ->
  s' = log EvUnlock s2 ->
  trace s' = (trace s ++ d)%list ->
  d = (pre ++ t ++ [EvUnlock])%list.
Proof.
  intros H1 H2 -> Hd. simpl in Hd. rewrite H2, H1, <- !app_assoc in Hd.
  by apply app_inv_head in Hd.
Qed.

Lemma last_two {A : Type} (l : list A) (a b : A) :
  last (l ++ [a; b]) = Some b.
Proof.
  change (l ++ [a; b])%list with (l ++ [a] ++ [b])%list.
  by rewrite app_assoc, last_snoc.
Qed.

(** When the rollback of the transaction tail succeeds, the store is back
    at the snapshot and the transaction is closed. *)
Lemma tail_rollback_restores sql v s1 r s2 st0 (t : list Event) :
  transaction_tail sql_batch sql v s1 = (r, s2) ->
  eng_snapshot (db_ s1) = Some st0 ->
  trace s2 = (trace s1 ++ t)%list ->
  last t = Some (EvCall CRollback true) ->
  eng_store (db_ s2) = st0 /\ eng_snapshot (db_ s2) = None.
Proof.
  intros H Hsn Htr Hlast.
  apply transaction_tail_run with (st0 := st0) in H as (_ & H); [|done].
  destruct H as [(_ & Htr' & _)|(mid & c & ok & Htr' & _ & _ & _ & Hok)].
  - rewrite Htr' in Htr. apply app_inv_head in Htr. subst t. done.
  - rewrite Htr' in Htr. apply app_inv_head in Htr. subst t.
    rewrite last_two in Hlast. injection Hlast as ->.
    by apply Hok.
Qed.

(** The failing step among the events of a transaction tail. *)
Lemma tail_failed_step sql v (pre : list Event) (c0 c : Call) (ok : bool) :
  (pre, c0) ∈
    [ (@nil Event, CExecuteMultiple sql);
      ([EvCall (CExecuteMultiple sql) true], CSetUserVersion v);
      ([EvCall (CExecuteMultiple sql) true;
        EvCall (CSetUserVersion v) true], CCommit) ] ->
  c ∈ [CExecuteMultiple sql; CSetUserVersion v; CCommit] ->
  EvCall c false ∈ (pre ++ [EvCall c0 false; EvCall CRollback ok])%list ->
  c = c0 /\ Forall (fun ev => exists c', ev = EvCall c' true) pre.
Proof.
  intros Hin Hc Hev.
  list_cases Hin; injection Hin as -> ->; simpl in Hev;
    list_cases Hev; list_cases Hc; subst; try discriminate;
    (split; [congruence|]); repeat constructor; by eexists.
Qed.

(** C2 (as amended). When a step of [migrate] or [unsafeResetDatabase] fails
    after the transaction has begun (the batch, the version write or the
    commit), [rollback] is called next, the call throws, and when the
    rollback succeeds the error thrown is that of the failing step.  After a
    rolled-back [migrate] the schema version, the data and the record cache
    are what they were before the call.  After a rolled-back
    [unsafeResetDatabase] the store is the one the vacuum left, which the
    transaction started from, and the record cache is empty. *)
Theorem failure_in_transaction_rolls_back :
  (forall cfg migrationSql (fromVersion toVersion : Z) s r s' d c,
     migrate sql_batch cfg migrationSql fromVersion toVersion s = (r, s') ->
     trace s' = (trace s ++ d)%list ->
     EvCall CBeginTransaction true ∈ d ->
     c ∈ [CExecuteMultiple migrationSql; CSetUserVersion toVersion;
          CCommit] ->
     EvCall c false ∈ d ->
     exists mid ok,
       d = ([EvLock; EvCall CBeginTransaction true] ++ mid
            ++ [EvCall c false; EvCall CRollback ok; EvUnlock])%list
       /\ Forall (fun ev => exists c', ev = EvCall c' true) mid
       /\ r = Threw (SqliteError (if ok then c else CRollback))
       /\ cachedRecords_ s' = cachedRecords_ s
       /\ (ok = true ->
             eng_store (db_ s') = eng_store (db_ s)
             /\ eng_snapshot (db_ s') = None))
  /\
  (forall schema (schemaVersion : Z) s r s' d c,
     unsafeResetDatabase sql_batch schema schemaVersion s = (r, s') ->
     trace s' = (trace s ++ d)%list ->
     EvCall CBeginTransaction true ∈ d ->
     c ∈ [CExecuteMultiple schema; CSetUserVersion schemaVersion; CCommit] ->
     EvCall c false ∈ d ->
     exists mid ok,
       d = ([EvLock; EvCall (CDbConfigResetDatabase true) true;
             EvCall (CExecuteMultiple "vacuum") true;
             EvCall (CDbConfigResetDatabase false) true;
             EvCall CBeginTransaction true] ++ mid
            ++ [EvCall c false; EvCall CRollback ok; EvUnlock])%list
       /\ Forall (fun ev => exists c', ev = EvCall c' true) mid
       /\ r = Threw (SqliteError (if ok then c else CRollback))
       /\ cachedRecords_ s' = ∅
       /\ (ok = true ->
             eng_store (db_ s')
               = (sql_batch true "vacuum" (eng_store (db_ s))).1
             /\ eng_snapshot (db_ s') = None)).
Proof.
  split.
  - intros cfg sql from to s r s' d c H Htr Hbegun Hc Hfail.
    apply migrate_shapes in H
      as ((_ & _ & Hcr) & [(_ & Htr' & _)
              |[(_ & _ & _ & Htr' & _)
               |(s1 & s2 & Hb & Hfrom & Ht & Hs' & Htr1)]]).
    1-2: rewrite Htr' in Htr; apply app_inv_head in Htr; subst d.
    { by list_cases Hbegun. }
    { list_cases Hfail. }
    pose proof (eng_begin_true _ _ Hb) as (_ & _ & _ & Hsn & _).
    pose proof (transaction_tail_shapes _ _ _ _ _ Ht)
      as (_ & t & Htr2 & [(-> & -> & _)|(pre & c0 & ok & -> & -> & Hin)]);
      pose proof (delta_around_tail _ _ _ _ _ _ _ Htr1 Htr2 Hs' Htr) as ->.
    { exfalso. destruct (NDEBUG cfg); simpl in Hfail; list_cases Hfail. }
    assert (EvCall c false
              ∈ (pre ++ [EvCall c0 false; EvCall CRollback ok])%list)
      as Hfail'.
    { destruct (NDEBUG cfg); simpl in Hfail; list_cases Hfail;
        apply elem_of_app in Hfail as [Hf|Hf]; try done; by list_cases Hf. }
    destruct (tail_failed_step _ _ _ _ _ _ Hin Hc Hfail') as (-> & Hpre).
    exists ((if NDEBUG cfg then [] else [EvCall CGetUserVersion true])
            ++ pre)%list, ok.
    split; [by rewrite <- !app_assoc|]. split.
    { apply Forall_app. split; [|done].
      destruct (NDEBUG cfg); repeat constructor. by eexists. }
    split; [done|]. split; [done|]. intros ->.
    subst s'. rewrite db_log.
    apply (tail_rollback_restores _ _ _ _ _ _ _ Ht Hsn Htr2).
    apply last_two.
  - intros schema v s r s' d c H Htr Hbegun Hc Hfail.
    apply unsafeResetDatabase_shapes in H
      as (_ & [(e1 & _ & _ & Htr' & _)
              |[(e1 & e2 & _ & _ & _ & Htr' & _)
               |[(e1 & e2 & e3 & _ & _ & _ & _ & Htr' & _)
                |[(e1 & e2 & e3 & e4 & _ & _ & _ & _ & _ & Htr' & _)
                 |(e1 & e2 & e3 & s1 & s2 & H1 & H2 & H3 & H4 & Hcr & Ht
                   & Hs' & Htr1)]]]]).
    1-4: rewrite Htr' in Htr; apply app_inv_head in Htr; subst d;
      by list_cases Hbegun.
    pose proof (eng_db_config_reset_true _ _ _ H1) as (Hrm & Hs1 & _).
    pose proof (eng_exec_true _ _ _ _ H2) as (_ & Hs2).
    pose proof (eng_db_config_reset_true _ _ _ H3) as (_ & Hs3 & _).
    pose proof (eng_begin_true _ _ H4) as (_ & _ & _ & Hsn & _).
    rewrite Hs3, Hs2, Hrm, Hs1 in Hsn.
    pose proof (transaction_tail_shapes _ _ _ _ _ Ht)
      as ((_ & _ & Hcr2) & t & Htr2
          & [(-> & -> & _)|(pre & c0 & ok & -> & -> & Hin)]);
      pose proof (delta_around_tail _ _ _ _ _ _ _ Htr1 Htr2 Hs' Htr) as ->.
    { exfalso. simpl in Hfail. list_cases Hfail. }
    assert (EvCall c false
              ∈ (pre ++ [EvCall c0 false; EvCall CRollback ok])%list)
      as Hfail'.
    { simpl in Hfail; list_cases Hfail;
        apply elem_of_app in Hfail as [Hf|Hf]; try done; by list_cases Hf. }
    destruct (tail_failed_step _ _ _ _ _ _ Hin Hc Hfail') as (-> & Hpre).
    exists pre, ok.
    split; [by rewrite <- !app_assoc|]. split; [done|].
    split; [done|]. subst s'. split; [simpl; congruence|]. intros ->.
    rewrite db_log.
    apply (tail_rollback_restores _ _ _ _ _ _ _ Ht Hsn Htr2).
    apply last_two.
Qed.

(** X3. [migrate] and [unsafeResetDatabase] return exactly when their
    [COMMIT] succeeded; after a successful [COMMIT] no rollback is called;
    and a rollback is only ever called in a transaction that [BEGIN]
    opened. *)
Theorem returns_iff_committed :
  (forall cfg migrationSql (fromVersion toVersion : Z) s r s' d,
     migrate sql_batch cfg migrationSql fromVersion toVersion s = (r, s') ->
     trace s' = (trace s ++ d)%list ->
     (r = Returned tt <-> EvCall CCommit true ∈ d)
     /\ (EvCall CCommit true ∈ d -> forall ok, EvCall CRollback ok ∉ d)
     /\ (forall ok, EvCall CRollback ok ∈ d ->
           EvCall CBeginTransaction true ∈ d))
  /\
  (forall schema (schemaVersion : Z) s r s' d,
     unsafeResetDatabase sql_batch schema schemaVersion s = (r, s') ->
     trace s' = (trace s ++ d)%list ->
     (r = Returned tt <-> EvCall CCommit true ∈ d)
     /\ (EvCall CCommit true ∈ d -> forall ok, EvCall CRollback ok ∉ d)
     /\ (forall ok, EvCall CRollback ok ∈ d ->
           EvCall CBeginTransaction true ∈ d)).
Proof.
  split.
  - intros cfg sql from to s r s' d H Htr.
    apply migrate_shapes in H
      as (_ & [(-> & Htr' & _)
              |[(_ & _ & -> & Htr' & _)
               |(s1 & s2 & Hb & Hfrom & Ht & Hs' & Htr1)]]).
    + rewrite Htr' in Htr. apply app_inv_head in Htr. subst d.
      split; [split; [done|intros Hin; by list_cases Hin]|].
      split; [intros Hin; by list_cases Hin|].
      intros ok Hin. by list_cases Hin.
    + rewrite Htr' in Htr. apply app_inv_head in Htr. subst d.
      split; [split; [done|intros Hin; by list_cases Hin]|].
      split; [intros Hin; by list_cases Hin|].
      intros ok Hin. by list_cases Hin.
    + apply tail_commit_or_rollback in Ht
        as (t & Htr2 & Hiff & Hexcl & _ & _ & _).
      pose proof (delta_around_tail _ _ _ _ _ _ _ Htr1 Htr2 Hs' Htr) as ->.
      assert (forall x,
                x = EvCall CCommit true
                \/ (exists ok, x = EvCall CRollback ok) ->
                x ∉ ([EvLock; EvCall CBeginTransaction true]
                     ++ (if NDEBUG cfg then []
                         else [EvCall CGetUserVersion true]))%list)
        as Hpre.
      { intros x Hx Hin. destruct (NDEBUG cfg); simpl in Hin;
          list_cases Hin; destruct Hx as [->|[ok ->]]; done. }
      split; [|split].
      * rewrite elem_of_around; [done|apply Hpre; by left|done].
      * rewrite elem_of_around; [|apply Hpre; by left|done].
        intros Hc ok.
        rewrite elem_of_around; [by apply Hexcl|apply Hpre; eauto|done].
      * intros ok _. in_list.
  - intros schema v s r s' d H Htr.
    apply unsafeResetDatabase_shapes in H
      as (_ & [(e1 & _ & -> & Htr' & _)
              |[(e1 & e2 & _ & _ & -> & Htr' & _)
               |[(e1 & e2 & e3 & _ & _ & _ & -> & Htr' & _)
                |[(e1 & e2 & e3 & e4 & _ & _ & _ & _ & -> & Htr' & _)
                 |(e1 & e2 & e3 & s1 & s2 & _ & _ & _ & _ & _ & Ht & Hs'
                   & Htr1)]]]]).
    1-4: rewrite Htr' in Htr; apply app_inv_head in Htr; subst d;
      (split; [split; [done|intros Hin; by list_cases Hin]|]);
      (split; [intros Hin; by list_cases Hin|]);
      intros ok Hin; by list_cases Hin.
    apply tail_commit_or_rollback in Ht
      as (t & Htr2 & Hiff & Hexcl & _ & _ & _).
    pose proof (delta_around_tail _ _ _ _ _ _ _ Htr1 Htr2 Hs' Htr) as ->.
    assert (forall x,
              x = EvCall CCommit true \/ (exists ok, x = EvCall CRollback ok) ->
              x ∉ [EvLock; EvCall (CDbConfigResetDatabase true) true;
                   EvCall (CExecuteMultiple "vacuum") true;
                   EvCall (CDbConfigResetDatabase false) true;
                   EvCall CBeginTransaction true]) as Hpre.
    { intros x Hx Hin. list_cases Hin; destruct Hx as [->|[ok ->]]; done. }
    split; [|split].
    + rewrite elem_of_around; [done|apply Hpre; by left|done].
    + rewrite elem_of_around; [|apply Hpre; by left|done].
      intros Hc ok.
      rewrite elem_of_around; [by apply Hexcl|apply Hpre; eauto|done].
    + intros ok _. in_list.
Qed.

(** X4. After [unsafeResetDatabase], whatever its outcome, the record
    cache is empty if [BEGIN] succeeded and is what it was before the call
    otherwise. *)
Theorem reset_clears_cache_iff_begun schema (schemaVersion : Z) s r s' d :
  unsafeResetDatabase sql_batch schema schemaVersion s = (r, s') ->
  trace s' = (trace s ++ d)%list ->
  (EvCall CBeginTransaction true ∈ d -> cachedRecords_ s' = ∅)
  /\ (EvCall CBeginTransaction true ∉ d ->
        cachedRecords_ s' = cachedRecords_ s).
Proof.
  intros H Htr.
  apply unsafeResetDatabase_shapes in H
    as (_ & [(e1 & _ & _ & Htr' & _ & Hcr)
            |[(e1 & e2 & _ & _ & _ & Htr' & _ & Hcr)
             |[(e1 & e2 & e3 & _ & _ & _ & _ & Htr' & _ & Hcr)
              |[(e1 & e2 & e3 & e4 & _ & _ & _ & _ & _ & Htr' & _ & Hcr)
               |(e1 & e2 & e3 & s1 & s2 & _ & _ & _ & _ & Hcr & Ht & Hs'
                 & Htr1)]]]]).
  1-4: rewrite Htr' in Htr; apply app_inv_head in Htr; subst d;
    split; [intros Hin; by list_cases Hin|done].
  apply transaction_tail_shapes in Ht as ((_ & _ & Hcr2) & t & Htr2 & _).
  pose proof (delta_around_tail _ _ _ _ _ _ _ Htr1 Htr2 Hs' Htr) as ->.
  subst s'. simpl. split; [intros _; congruence|].
  intros Hnot. destruct Hnot. in_list.
Qed.

(** X5. When the vacuum of an [unsafeResetDatabase] has succeeded and the
    call fails before its transaction begins (turning reset mode off fails,
    or [BEGIN] fails), the call throws with the store already emptied by
    the vacuum and the record cache still holding every key it held: the
    cache then names rows that are gone. *)
Theorem reset_wiped_without_transaction schema (schemaVersion : Z) s r s' d :
  unsafeResetDatabase sql_batch schema schemaVersion s = (r, s') ->
  trace s' = (trace s ++ d)%list ->
  EvCall (CExecuteMultiple "vacuum") true ∈ d ->
  EvCall CBeginTransaction true ∉ d ->
  (r = Threw (JSError "Failed to disable reset database mode")
   \/ r = Threw (SqliteError CBeginTransaction))
  /\ eng_store (db_ s') = (sql_batch true "vacuum" (eng_store (db_ s))).1
  /\ cachedRecords_ s' = cachedRecords_ s
  /\ (forall ok, EvCall CRollback ok ∉ d).
Proof.
  intros H Htr Hvac Hnb.
  apply unsafeResetDatabase_shapes in H
    as (_ & [(e1 & _ & _ & Htr' & _ & Hcr)
            |[(e1 & e2 & _ & _ & _ & Htr' & _ & Hcr)
             |[(e1 & e2 & e3 & H1 & H2 & H3 & -> & Htr' & Hdb & Hcr)
              |[(e1 & e2 & e3 & e4 & H1 & H2 & H3 & H4 & -> & Htr' & Hdb
                 & Hcr)
               |(e1 & e2 & e3 & s1 & s2 & _ & _ & _ & _ & Hcr & Ht & Hs'
                 & Htr1)]]]]).
  1-4: rewrite Htr' in Htr; apply app_inv_head in Htr; subst d.
  - by list_cases Hvac.
  - by list_cases Hvac.
  - split; [by left|]. split; [|split; [done|]].
    + pose proof (eng_db_config_reset_true _ _ _ H1) as (Hrm & Hs1 & _).
      pose proof (eng_exec_true _ _ _ _ H2) as (_ & Hs2).
      pose proof (eng_call_failed_store false _ _ (or_introl H3))
        as (Hs3 & _).
      rewrite Hdb, Hs3, Hs2, Hrm, Hs1. done.
    + intros ok Hin. by list_cases Hin.
  - split; [by right|]. split; [|split; [done|]].
    + pose proof (eng_db_config_reset_true _ _ _ H1) as (Hrm & Hs1 & _).
      pose proof (eng_exec_true _ _ _ _ H2) as (_ & Hs2).
      pose proof (eng_db_config_reset_true _ _ _ H3) as (_ & Hs3 & _).
      pose proof (eng_call_failed_store false _ _ (or_intror (or_introl H4)))
        as (Hs4 & _).
      rewrite Hdb, Hs4, Hs3, Hs2, Hrm, Hs1. done.
    + intros ok Hin. by list_cases Hin.
  - apply transaction_tail_shapes in Ht as (_ & t & Htr2 & _).
    pose proof (delta_around_tail _ _ _ _ _ _ _ Htr1 Htr2 Hs' Htr) as ->.
    destruct Hnb. in_list.
Qed.

(** X6. When the vacuum of an [unsafeResetDatabase] fails, the call throws
    the vacuum's error at once: the handle has seen the call that turns
    reset mode on and the vacuum and nothing else, so reset mode is never
    turned off again and is left on; no transaction was begun and the record
    cache is untouched. *)
Theorem reset_vacuum_failure_leaves_reset_mode schema (schemaVersion : Z)
    s e1 :
  eng_db_config_reset true (db_ s) = (true, e1) ->
  (eng_exec sql_batch "vacuum" e1).1 = false ->
  (unsafeResetDatabase sql_batch schema schemaVersion s).1
    = Threw (SqliteError (CExecuteMultiple "vacuum"))
  /\ trace (unsafeResetDatabase sql_batch schema schemaVersion s).2
       = (trace s ++ [EvLock; EvCall (CDbConfigResetDatabase true) true;
                      EvCall (CExecuteMultiple "vacuum") false;
                      EvUnlock])%list
  /\ eng_reset_mode
       (db_ (unsafeResetDatabase sql_batch schema schemaVersion s).2) = true
  /\ cachedRecords_ (unsafeResetDatabase sql_batch schema schemaVersion s).2
       = cachedRecords_ s.
Proof.
  intros H1 H2.
  destruct (unsafeResetDatabase sql_batch schema schemaVersion s)
    as [r s'] eqn:H.
  destruct (eng_exec sql_batch "vacuum" e1) as [ok e2] eqn:Hx.
  simpl in H2. subst ok.
  apply unsafeResetDatabase_shapes in H
    as (_ & [(e1' & H1' & _)
            |[(e1' & e2' & H1' & H2' & -> & Htr' & Hdb & Hcr)
             |[(e1' & e2' & e3 & H1' & H2' & _)
              |[(e1' & e2' & e3 & e4 & H1' & H2' & _)
               |(e1' & e2' & e3 & s1 & s2 & H1' & H2' & _)]]]]);
    try congruence.
  simpl. split; [done|]. split; [done|]. split; [|done].
  assert (e1' = e1) as -> by congruence.
  assert (e2' = e2) as -> by congruence.
  pose proof (eng_db_config_reset_true _ _ _ H1) as (Hrm & _).
  pose proof (eng_exec_keeps _ _ _ _ _ Hx) as (_ & _ & Hrm2).
  rewrite Hdb, Hrm2. done.
Qed.


(** The schema version a returning transaction tail leaves. *)
Lemma transaction_tail_version sql v s1 s2 :
  transaction_tail sql_batch sql v s1 = (Returned tt, s2) ->
  st_user_version (eng_store (db_ s2)) = v.
Proof.
  intros Ht. apply transaction_tail_shapes in Ht
    as (_ & t & _ & [(_ & _ & e1 & e2 & _ & Hv & Hc)
                    |(pre & c & ok & ? & _)]); [|done].
  pose proof (eng_set_user_version_data _ _ _ Hv) as (Hst & _).
  pose proof (eng_commit_true _ _ Hc) as (Hst' & _).
  by rewrite Hst', Hst.
Qed.

(** A [migrate] that starts on the version it expects does not abort. *)
Lemma migrate_from_current_version cfg sql (to : Z) s r s' :
  migrate sql_batch cfg sql (st_user_version (eng_store (db_ s))) to s
    = (r, s') ->
  forall msg, r <> Aborted msg.
Proof.
  intros H msg ->. apply migrate_shapes in H
    as (_ & [(? & _)|[(_ & Hne & _)|(s1 & s2 & _ & _ & Ht & _)]]);
    [done|done|].
  apply transaction_tail_shapes in Ht
    as (_ & t & _ & [(? & _)|(pre & c & ok & ? & _)]); done.
Qed.

(** X12. When [BEGIN] fails, [migrate] throws that error and nothing else
    has happened: no version check, no batch, no rollback, and the store,
    the open-transaction state and the caches are what they were. *)
Theorem migrate_begin_failure cfg migrationSql (fromVersion toVersion : Z) s :
  (eng_begin (db_ s)).1 = false ->
  (migrate sql_batch cfg migrationSql fromVersion toVersion s).1
    = Threw (SqliteError CBeginTransaction)
  /\ trace (migrate sql_batch cfg migrationSql fromVersion toVersion s).2
       = (trace s ++ [EvLock; EvCall CBeginTransaction false;
                      EvUnlock])%list
  /\ eng_store
       (db_ (migrate sql_batch cfg migrationSql fromVersion toVersion s).2)
       = eng_store (db_ s)
  /\ eng_snapshot
       (db_ (migrate sql_batch cfg migrationSql fromVersion toVersion s).2)
       = eng_snapshot (db_ s)
  /\ cachedRecords_
       (migrate sql_batch cfg migrationSql fromVersion toVersion s).2
       = cachedRecords_ s.
Proof.
  intros Hb.
  destruct (migrate sql_batch cfg migrationSql fromVersion toVersion s)
    as [r s'] eqn:H.
  apply migrate_shapes in H
    as ((_ & _ & Hcr) & [(-> & Htr & Hb')
                        |[(_ & _ & _ & _ & Hb')|(s1 & s2 & Hb' & _)]]).
  - simpl. split; [done|]. split; [done|].
    pose proof (eng_call_failed_store false _ _
                  (or_intror (or_introl Hb'))) as (Hst & Hsn & _).
    by rewrite Hst, Hsn.
  - congruence.
  - rewrite Hb' in Hb. done.
Qed.

(** X13. Version checks chain: after a [migrate] to version [b] that
    returned, or an [unsafeResetDatabase] to version [b] that returned, a
    [migrate] from version [b] never fails its assertion. *)
Theorem version_checks_chain cfg :
  (forall sql1 (a b : Z) s s1,
     migrate sql_batch cfg sql1 a b s = (Returned tt, s1) ->
     forall sql2 (c : Z) msg,
       (migrate sql_batch cfg sql2 b c s1).1 <> Aborted msg)
  /\
  (forall schema (b : Z) s s1,
     unsafeResetDatabase sql_batch schema b s = (Returned tt, s1) ->
     forall sql2 (c : Z) msg,
       (migrate sql_batch cfg sql2 b c s1).1 <> Aborted msg).
Proof.
  split.
  - intros sql1 a b s s1 H sql2 c msg.
    apply migrate_shapes in H
      as (_ & [(? & _)|[(_ & _ & ? & _)|(s0 & s2 & _ & _ & Ht & -> & _)]]);
      [done|done|].
    apply transaction_tail_version in Ht.
    destruct (migrate sql_batch cfg sql2 b c (log EvUnlock s2))
      as [r s3] eqn:H2. simpl.
    rewrite <- Ht in H2.
    change (db_ s2) with (db_ (log EvUnlock s2)) in H2.
    by apply (migrate_from_current_version _ _ _ _ _ _ H2).
  - intros schema b s s1 H sql2 c msg.
    apply unsafeResetDatabase_shapes in H
      as (_ & [(e1 & _ & ? & _)
              |[(e1 & e2 & _ & _ & ? & _)
               |[(e1 & e2 & e3 & _ & _ & _ & ? & _)
                |[(e1 & e2 & e3 & e4 & _ & _ & _ & _ & ? & _)
                 |(e1 & e2 & e3 & s0 & s2 & _ & _ & _ & _ & _ & Ht & ->
                   & _)]]]]); try done.
    apply transaction_tail_version in Ht.
    destruct (migrate sql_batch cfg sql2 b c (log EvUnlock s2))
      as [r s3] eqn:H2. simpl.
    rewrite <- Ht in H2.
    change (db_ s2) with (db_ (log EvUnlock s2)) in H2.
    by apply (migrate_from_current_version _ _ _ _ _ _ H2).
Qed.

(** ** The record cache under sequences of calls *)

Lemma run_cache_ops_keeps (ops : list CacheOp) s :
  db_ (run_cache_ops ops s) = db_ s
  /\ isDestroyed_ (run_cache_ops ops s) = isDestroyed_ s
  /\ cachedStatements_ (run_cache_ops ops s) = cachedStatements_ s
  /\ trace (run_cache_ops ops s) = trace s.
Proof.
  revert s. induction ops as [|op ops IH]; intros s; [done|].
  cbn [run_cache_ops foldl]. fold (run_cache_ops ops (run_cache_op op s)).
  destruct (IH (run_cache_op op s)) as (-> & -> & -> & ->).
  by destruct op.
Qed.

Lemma run_cache_ops_fields (ops : list CacheOp) s :
  run_cache_ops ops s
    = set_cachedRecords_ (cachedRecords_ (run_cache_ops ops s)) s.
Proof.
  pose proof (run_cache_ops_keeps ops s) as (H1 & H2 & H3 & H4).
  destruct (run_cache_ops ops s) as [e' dd' cs' cr' tr'].
  destruct s as [e dd cs cr tr]. simpl in *. by subst.
Qed.

Lemma elem_of_run_cache_ops (key : string) (ops : list CacheOp) s :
  key ∈ cachedRecords_ (run_cache_ops ops s) <->
  match last_mutation key ops with
  | Some b => b = true
  | None => key ∈ cachedRecords_ s
  end.
Proof.
  revert s. induction ops as [|op ops IH]; intros s; [done|].
  cbn [run_cache_ops foldl]. fold (run_cache_ops ops (run_cache_op op s)).
  rewrite IH. cbn [last_mutation].
  destruct (last_mutation key ops); [done|].
  destruct op as [k|k|k]; simpl; [done| |];
    case_decide; subst; set_unfold; intuition congruence.
Qed.

(** X8. The record cache after a sequence of cache calls depends only on
    the last call that changed each key: two sequences that agree on that
    for every key leave the same object (so calls on different keys can be
    reordered, and only the last of several calls on one key counts).  The
    handle, the statement cache, the destroyed flag and the trace are never
    changed by such a sequence. *)
Theorem cache_determined_by_last_mutations (ops1 ops2 : list CacheOp) s :
  (forall key, last_mutation key ops1 = last_mutation key ops2) ->
  run_cache_ops ops1 s = run_cache_ops ops2 s
  /\ db_ (run_cache_ops ops1 s) = db_ s
  /\ cachedStatements_ (run_cache_ops ops1 s) = cachedStatements_ s
  /\ isDestroyed_ (run_cache_ops ops1 s) = isDestroyed_ s
  /\ trace (run_cache_ops ops1 s) = trace s.
Proof.
  clear sql_batch. intros Hsame.
  split; [|by destruct (run_cache_ops_keeps ops1 s) as (? & ? & ? & ?)].
  rewrite (run_cache_ops_fields ops1 s), (run_cache_ops_fields ops2 s).
  f_equal. apply set_eq. intros key.
  rewrite !elem_of_run_cache_ops, Hsame. done.
Qed.

(** ** [destroy], the constructor and the destructor *)

(** X9. [destroy] leaves the record cache alone, on a live object as on a
    destroyed one and whatever the finalizations report: it holds the same
    keys after the call, and every [isCached] answers as before. *)
Theorem destroy_keeps_record_cache s :
  cachedRecords_ (destroy s).2 = cachedRecords_ s
  /\ (forall cacheKey,
        (isCached cacheKey (destroy s).2).1 = (isCached cacheKey s).1).
Proof.
  clear sql_batch.
  assert (cachedRecords_ (destroy s).2 = cachedRecords_ s) as Hcr.
  { destruct (isDestroyed_ s) eqn:Hd; [by rewrite destroy_destroyed|].
    by destruct (destroy_live s Hd) as (s' & d & -> & _ & _ & _ & _ & _ & ? & _). }
  split; [done|].
  intros k. unfold isCached. rewrite !bind_run. unfold gets. simpl.
  by rewrite Hcr.
Qed.


End MoreProofs.

(** ** The statements of the pragma script *)

(** X11. For a password without a single quote, whatever the build and the
    locking choice, the script reads as exactly the statements
    [init_statements] lists, each ended by its semicolon: the cipher
    pragmas when there is a password and the codec, then the platform and
    journal pragmas, with [locking_mode = EXCLUSIVE] last and present
    exactly when exclusive locking was asked for. *)
Theorem initSql_statements cfg password usesExclusiveLocking :
  has_quote password = false ->
  statements false (initSql cfg password usesExclusiveLocking)
    = init_statements cfg password usesExclusiveLocking
  /\ last (statements false (initSql cfg password usesExclusiveLocking))
       = Some ""
  /\ ("pragma locking_mode = EXCLUSIVE"
        ∈ statements false (initSql cfg password usesExclusiveLocking)
      <-> usesExclusiveLocking = true).
Proof.
  intros Hq.
  assert (statements false (initSql cfg password usesExclusiveLocking)
          = init_statements cfg password usesExclusiveLocking) as Heq.
  { destruct cfg as [[] android ndebug].
    - destruct password as [|a p].
      + by destruct android, usesExclusiveLocking; vm_compute.
      + rewrite initSql_with_password by done.
        rewrite cipher_pragmas_split, !string_app_assoc.
        unfold String.append at 1.
        cbn [statements Ascii.eqb Bool.eqb andb negb].
        destruct android, usesExclusiveLocking;
          (erewrite statements_inside_literal; [|done|by vm_compute]);
          reflexivity.
    - by destruct android, usesExclusiveLocking; vm_compute. }
  rewrite Heq. split; [done|]. split.
  - unfold init_statements. rewrite !app_assoc. by rewrite last_snoc.
  - unfold init_statements.
    destruct (SQLITE_HAS_CODEC cfg && negb (empty password)), (ANDROID cfg),
      usesExclusiveLocking; simpl; split; intros H; try done;
      try (repeat first [ apply list_elem_of_here
                        | apply list_elem_of_further ]);
      repeat (apply elem_of_cons in H as [H|H];
              [try discriminate H|]);
      try (by apply elem_of_nil in H).
Qed.

(** ** The rollback at concrete inputs *)

Lemma failure_in_transaction_rolls_back_witness :
  (exists mid ok,
     [EvLock; EvCall CBeginTransaction true;
      EvCall (CExecuteMultiple Toy.bad_batch) false; EvCall CRollback true;
      EvUnlock]
       = ([EvLock; EvCall CBeginTransaction true] ++ mid
          ++ [EvCall (CExecuteMultiple Toy.bad_batch) false;
              EvCall CRollback ok; EvUnlock])%list
     /\ Forall (fun ev => exists c', ev = EvCall c' true) mid
     /\ (migrate Toy.sql_batch Toy.release_build Toy.bad_batch 1 2
           (Toy.session 1 [])).1
          = Threw (SqliteError
                     (if ok then CExecuteMultiple Toy.bad_batch
                      else CRollback))
     /\ cachedRecords_ (migrate Toy.sql_batch Toy.release_build Toy.bad_batch
                          1 2 (Toy.session 1 [])).2
          = cachedRecords_ (Toy.session 1 [])
     /\ (ok = true ->
           eng_store (db_ (migrate Toy.sql_batch Toy.release_build
                             Toy.bad_batch 1 2 (Toy.session 1 [])).2)
             = eng_store (db_ (Toy.session 1 []))
           /\ eng_snapshot (db_ (migrate Toy.sql_batch Toy.release_build
                                  Toy.bad_batch 1 2 (Toy.session 1 [])).2)
                = None))
  /\
  (exists mid ok,
     [EvLock; EvCall (CDbConfigResetDatabase true) true;
      EvCall (CExecuteMultiple "vacuum") true;
      EvCall (CDbConfigResetDatabase false) true;
      EvCall CBeginTransaction true;
      EvCall (CExecuteMultiple "CREATE TABLE t(id INTEGER)") true;
      EvCall (CSetUserVersion 5) false; EvCall CRollback true; EvUnlock]
       = ([EvLock; EvCall (CDbConfigResetDatabase true) true;
           EvCall (CExecuteMultiple "vacuum") true;
           EvCall (CDbConfigResetDatabase false) true;
           EvCall CBeginTransaction true] ++ mid
          ++ [EvCall (CSetUserVersion 5) false; EvCall CRollback ok;
              EvUnlock])%list
     /\ Forall (fun ev => exists c', ev = EvCall c' true) mid
     /\ (unsafeResetDatabase Toy.sql_batch "CREATE TABLE t(id INTEGER)" 5
           (Toy.session 1 [false; false; false; false; false; true])).1
          = Threw (SqliteError
                     (if ok then CSetUserVersion 5 else CRollback))
     /\ cachedRecords_ (unsafeResetDatabase Toy.sql_batch
                          "CREATE TABLE t(id INTEGER)" 5
                          (Toy.session 1 [false; false; false; false; false;
                                          true])).2 = ∅
     /\ (ok = true ->
           eng_store (db_ (unsafeResetDatabase Toy.sql_batch
                             "CREATE TABLE t(id INTEGER)" 5
                             (Toy.session 1 [false; false; false; false;
                                             false; true])).2)
             = (Toy.sql_batch true "vacuum"
                  (eng_store (db_ (Toy.session 1 [false; false; false; false;
                                                  false; true])))).1
           /\ eng_snapshot (db_ (unsafeResetDatabase Toy.sql_batch
                                  "CREATE TABLE t(id INTEGER)" 5
                                  (Toy.session 1 [false; false; false; false;
                                                  false; true])).2)
                = None)).
Proof.
  split.
  - apply (proj1 (failure_in_transaction_rolls_back Toy.sql_batch)
             Toy.release_build Toy.bad_batch 1 2 (Toy.session 1 [])
             (migrate Toy.sql_batch Toy.release_build Toy.bad_batch 1 2
                (Toy.session 1 [])).1
             (migrate Toy.sql_batch Toy.release_build Toy.bad_batch 1 2
                (Toy.session 1 [])).2);
      [by vm_compute|by vm_compute
      |apply (bool_decide_unpack _); by vm_compute
      |apply (bool_decide_unpack _); by vm_compute
      |apply (bool_decide_unpack _); by vm_compute].
  - apply (proj2 (failure_in_transaction_rolls_back Toy.sql_batch)
             "CREATE TABLE t(id INTEGER)" 5
             (Toy.session 1 [false; false; false; false; false; true])
             (unsafeResetDatabase Toy.sql_batch "CREATE TABLE t(id INTEGER)" 5
                (Toy.session 1 [false; false; false; false; false; true])).1
             (unsafeResetDatabase Toy.sql_batch "CREATE TABLE t(id INTEGER)" 5
                (Toy.session 1 [false; false; false; false; false; true])).2);
      [by vm_compute|by vm_compute
      |apply (bool_decide_unpack _); by vm_compute
      |apply (bool_decide_unpack _); by vm_compute
      |apply (bool_decide_unpack _); by vm_compute].
Defined.

(** ** The further properties at concrete inputs *)

Lemma migrate_returns_committed_witness :
  eng_store (db_ (migrate Toy.sql_batch Toy.debug_build
                    "ALTER TABLE posts ADD c" 1 2 (Toy.session 1 [])).2)
    = {| st_data := ["CREATE TABLE posts(id)"; "ALTER TABLE posts ADD c"];
         st_user_version := 2 |}.
Proof.
  destruct (migrate_returns_committed Toy.sql_batch Toy.debug_build
              "ALTER TABLE posts ADD c" 1 2 (Toy.session 1 [])
              (migrate Toy.sql_batch Toy.debug_build
                 "ALTER TABLE posts ADD c" 1 2 (Toy.session 1 [])).2)
    as (H & _); [by vm_compute|].
  exact H.
Defined.

Lemma returns_iff_committed_witness :
  (Threw (SqliteError (CSetUserVersion 2)) = Returned tt
   <-> EvCall CCommit true
         ∈ [EvLock; EvCall CBeginTransaction true;
            EvCall (CExecuteMultiple "ALTER TABLE posts ADD c") true;
            EvCall (CSetUserVersion 2) false; EvCall CRollback true;
            EvUnlock])
  /\ (Returned tt = Returned tt
      <-> EvCall CCommit true
            ∈ [EvLock; EvCall (CDbConfigResetDatabase true) true;
               EvCall (CExecuteMultiple "vacuum") true;
               EvCall (CDbConfigResetDatabase false) true;
               EvCall CBeginTransaction true;
               EvCall (CExecuteMultiple "CREATE TABLE t(id INTEGER)") true;
               EvCall (CSetUserVersion 5) true; EvCall CCommit true;
               EvUnlock]).
Proof.
  split.
  - destruct (proj1 (returns_iff_committed Toy.sql_batch)
                Toy.release_build "ALTER TABLE posts ADD c" 1 2
                (Toy.session 1 [false; false; true])
                (Threw (SqliteError (CSetUserVersion 2)))
                (migrate Toy.sql_batch Toy.release_build
                   "ALTER TABLE posts ADD c" 1 2
                   (Toy.session 1 [false; false; true])).2
                [EvLock; EvCall CBeginTransaction true;
                 EvCall (CExecuteMultiple "ALTER TABLE posts ADD c") true;
                 EvCall (CSetUserVersion 2) false; EvCall CRollback true;
                 EvUnlock]) as (H & _);
      [by vm_compute|by vm_compute|exact H].
  - destruct (proj2 (returns_iff_committed Toy.sql_batch)
                "CREATE TABLE t(id INTEGER)" 5 (Toy.session 1 [])
                (Returned tt)
                (unsafeResetDatabase Toy.sql_batch
                   "CREATE TABLE t(id INTEGER)" 5 (Toy.session 1 [])).2
                [EvLock; EvCall (CDbConfigResetDatabase true) true;
                 EvCall (CExecuteMultiple "vacuum") true;
                 EvCall (CDbConfigResetDatabase false) true;
                 EvCall CBeginTransaction true;
                 EvCall (CExecuteMultiple "CREATE TABLE t(id INTEGER)") true;
                 EvCall (CSetUserVersion 5) true; EvCall CCommit true;
                 EvUnlock]) as (H & _);
      [by vm_compute|by vm_compute|exact H].
Defined.

(** A reset whose [BEGIN] fails: faults on the fourth engine call. *)
Lemma reset_clears_cache_iff_begun_witness :
  cachedRecords_ (unsafeResetDatabase Toy.sql_batch
                    "CREATE TABLE t(id INTEGER)" 5
                    (Toy.session 1 [false; false; false; true])).2
    = cachedRecords_ (Toy.session 1 [false; false; false; true]).
Proof.
  destruct (reset_clears_cache_iff_begun Toy.sql_batch
              "CREATE TABLE t(id INTEGER)" 5
              (Toy.session 1 [false; false; false; true])
              (Threw (SqliteError CBeginTransaction))
              (unsafeResetDatabase Toy.sql_batch
                 "CREATE TABLE t(id INTEGER)" 5
                 (Toy.session 1 [false; false; false; true])).2
              [EvLock; EvCall (CDbConfigResetDatabase true) true;
               EvCall (CExecuteMultiple "vacuum") true;
               EvCall (CDbConfigResetDatabase false) true;
               EvCall CBeginTransaction false; EvUnlock]) as (_ & H);
    [by vm_compute|by vm_compute|].
  apply H. apply (bool_decide_unpack _). by vm_compute.
Defined.

Lemma reset_wiped_without_transaction_witness :
  eng_store (db_ (unsafeResetDatabase Toy.sql_batch
                    "CREATE TABLE t(id INTEGER)" 5
                    (Toy.session 1 [false; false; true])).2)
    = (Toy.sql_batch true "vacuum"
         (eng_store (db_ (Toy.session 1 [false; false; true])))).1
  /\ cachedRecords_ (unsafeResetDatabase Toy.sql_batch
                       "CREATE TABLE t(id INTEGER)" 5
                       (Toy.session 1 [false; false; true])).2
       = cachedRecords_ (Toy.session 1 [false; false; true]).
Proof.
  destruct (reset_wiped_without_transaction Toy.sql_batch
              "CREATE TABLE t(id INTEGER)" 5
              (Toy.session 1 [false; false; true])
              (Threw (JSError "Failed to disable reset database mode"))
              (unsafeResetDatabase Toy.sql_batch
                 "CREATE TABLE t(id INTEGER)" 5
                 (Toy.session 1 [false; false; true])).2
              [EvLock; EvCall (CDbConfigResetDatabase true) true;
               EvCall (CExecuteMultiple "vacuum") true;
               EvCall (CDbConfigResetDatabase false) false; EvUnlock])
    as (_ & Hst & Hcr & _);
    [by vm_compute|by vm_compute
    |apply (bool_decide_unpack _); by vm_compute
    |apply (bool_decide_unpack _); by vm_compute|].
  split; [exact Hst|exact Hcr].
Defined.

(** What that run leaves: the table is gone and its key is still cached. *)
Example reset_wiped_with_stale_cache :
  st_data (eng_store (db_ (unsafeResetDatabase Toy.sql_batch
                             "CREATE TABLE t(id INTEGER)" 5
                             (Toy.session 1 [false; false; true])).2)) = []
  /\ (isCached "posts$p1"
        (unsafeResetDatabase Toy.sql_batch "CREATE TABLE t(id INTEGER)" 5
           (Toy.session 1 [false; false; true])).2).1 = Returned true.
Proof. split; by vm_compute. Qed.

Lemma reset_vacuum_failure_leaves_reset_mode_witness :
  eng_reset_mode
    (db_ (unsafeResetDatabase Toy.sql_batch "CREATE TABLE t(id INTEGER)" 5
            (Toy.session 1 [false; true])).2) = true.
Proof.
  destruct (reset_vacuum_failure_leaves_reset_mode Toy.sql_batch
              "CREATE TABLE t(id INTEGER)" 5 (Toy.session 1 [false; true])
              (eng_db_config_reset true
                 (db_ (Toy.session 1 [false; true]))).2)
    as (_ & _ & H & _); [by vm_compute|by vm_compute|].
  exact H.
Defined.


Lemma cache_determined_by_last_mutations_witness :
  run_cache_ops [OpMarkAsCached "a"; OpRemoveFromCache "b"] (Toy.session 1 [])
    = run_cache_ops [OpRemoveFromCache "b"; OpMarkAsCached "a";
                     OpIsCached "a"] (Toy.session 1 []).
Proof.
  destruct (cache_determined_by_last_mutations
              [OpMarkAsCached "a"; OpRemoveFromCache "b"]
              [OpRemoveFromCache "b"; OpMarkAsCached "a"; OpIsCached "a"]
              (Toy.session 1 [])) as (H & _).
  - intros key. simpl. repeat case_decide; congruence.
  - exact H.
Defined.


Lemma initSql_statements_witness :
  statements false
    (initSql {| SQLITE_HAS_CODEC := true; ANDROID := true; NDEBUG := true |}
       "pass;word" true)
    = [ "PRAGMA key = 'pass;word'"; "PRAGMA cipher_page_size = 4096";
        "PRAGMA kdf_iter = 64000"; "PRAGMA cipher_memory_security = ON";
        "PRAGMA cipher_default_use_hmac = ON";
        "PRAGMA cipher_compatibility = 4"; "pragma temp_store = memory";
        "pragma journal_mode = WAL"; "pragma busy_timeout = 5000";
        "pragma synchronous = FULL"; "pragma locking_mode = EXCLUSIVE"; "" ].
Proof.
  destruct (initSql_statements
              {| SQLITE_HAS_CODEC := true; ANDROID := true; NDEBUG := true |}
              "pass;word" true) as (H & _); [reflexivity|].
  exact H.
Defined.

Lemma migrate_begin_failure_witness :
  (migrate Toy.sql_batch Toy.debug_build "ALTER TABLE posts ADD c" 1 2
     (Toy.session 1 [true])).1 = Threw (SqliteError CBeginTransaction)
  /\ eng_store (db_ (migrate Toy.sql_batch Toy.debug_build
                       "ALTER TABLE posts ADD c" 1 2
                       (Toy.session 1 [true])).2)
       = eng_store (db_ (Toy.session 1 [true])).
Proof.
  destruct (migrate_begin_failure Toy.sql_batch Toy.debug_build
              "ALTER TABLE posts ADD c" 1 2 (Toy.session 1 [true]))
    as (Hr & _ & Hst & _); [by vm_compute|].
  split; [exact Hr|exact Hst].
Defined.

Lemma version_checks_chain_witness :
  (migrate Toy.sql_batch Toy.debug_build "ALTER TABLE posts ADD d" 2 3
     (migrate Toy.sql_batch Toy.debug_build "ALTER TABLE posts ADD c" 1 2
        (Toy.session 1 [])).2).1
    <> Aborted "Incompatible migration set"
  /\ (migrate Toy.sql_batch Toy.debug_build "ALTER TABLE t ADD c" 5 6
        (unsafeResetDatabase Toy.sql_batch "CREATE TABLE t(id INTEGER)" 5
           (Toy.session 1 [])).2).1
       <> Aborted "Incompatible migration set".
Proof.
  split.
  - apply (proj1 (version_checks_chain Toy.sql_batch Toy.debug_build)
             "ALTER TABLE posts ADD c" 1 2 (Toy.session 1 [])).
    by vm_compute.
  - apply (proj2 (version_checks_chain Toy.sql_batch Toy.debug_build)
             "CREATE TABLE t(id INTEGER)" 5 (Toy.session 1 [])).
    by vm_compute.
Defined.
